(** * Entmax and Fenchel-Young label-smoothing criterions of fairseq-entmax

    A shallow embedding of [fairseq/criterions/entmax_loss.py] and
    [fairseq/criterions/fyls_loss.py], and the properties of the criterions
    established on it.

    Numbers (Python floats and ints, tensor elements) are rationals [Q].
    The computations on the logits of a batch are written with the exact
    operations: what is stated of them names the expression the code
    evaluates. The sums and the quotients of [reduce_metrics] are those of
    a number format, given by the rounding [fl] of a [NumberFormat]; a
    quotient by zero is one of the non-finite values. Overflow is not
    modelled. Python exceptions are the [Raise] results of a small error
    monad. *)

From Stdlib Require Import ZArith QArith Qround Qabs List Bool Permutation Lia.
From stdpp Require Import gmap strings list.

Local Open Scope Z_scope.

(** ** Exceptions *)

Inductive exn : Type :=
| AssertionError
| IndexError
| RuntimeError
| ZeroDivisionError.

Inductive result (A : Type) : Type :=
| Ok (a : A)
| Raise (e : exn).

Arguments Ok {A} a.
Arguments Raise {A} e.

#[global] Instance result_ret : MRet result := fun A a => Ok a.

#[global] Instance result_bind : MBind result := fun A B f m =>
  match m with
  | Ok a => f a
  | Raise e => Raise e
  end.

(** ** Tensors

    A plain Python number is a [Number], a 0-dimensional tensor a
    [Scalar], a 1-dimensional one a [Vector]. A 2-dimensional tensor keeps
    the size of its last dimension next to its rows, as [logits.size(-1)]
    is defined even when there is no row. *)

Inductive tensor : Type :=
| Number (x : Q)
| Scalar (x : Q)
| Vector (xs : list Q).

Record matrix : Type := {
  size_last : Z;
  rows : list (list Q)
}.

(** The logits as the model returns them: sentences x positions x
    vocabulary. *)
Record tensor3 : Type := {
  dim_last : Z;
  blocks : list (list (list Q))
}.

(** Every row has [size_last] columns, as in any real tensor. *)
Definition rectangular (m : matrix) : Prop :=
  Forall (fun r => Z.of_nat (length r) = size_last m) (rows m).

(** [logits.view(-1, logits.size(-1))] *)
Definition view2 (t : tensor3) : matrix :=
  {| size_last := dim_last t; rows := concat (blocks t) |}.

(** [target.view(-1)] *)
Definition view1 (t : list (list Z)) : list Z := concat t.

(** [t.size(0)] *)
Definition size0 {A} (t : list A) : Z := Z.of_nat (length t).

(** [x < y] on rationals, as a boolean. *)
Definition Qlt_bool (x y : Q) : bool :=
  (Qnum x * QDen y <? Qnum y * QDen x)%Z.

(** Left-to-right sum starting from [0], as Python's [sum] builtin. *)
Definition Qsum (xs : list Q) : Q := fold_left Qplus xs 0%Q.

(** Broadcasting of two 1-dimensional tensors: equal sizes, or one of them
    of size 1; anything else is torch's size-mismatch [RuntimeError]. *)
Definition broadcast2 {A B C} (f : A -> B -> C) (u : list A) (v : list B)
  : result (list C) :=
  if (length u =? length v)%nat then Ok (zip_with f u v)
  else match u, v with
       | [a], _ => Ok (map (f a) v)
       | _, [b] => Ok (map (fun a => f a b) u)
       | _, _ => Raise RuntimeError
       end.

(** An operation on two values: two numbers give a number, a number and a
    tensor a tensor, and tensors are broadcast. *)
Definition tensor_map2 (f : Q -> Q -> Q) (a b : tensor) : result tensor :=
  match a, b with
  | Number x, Number y => Ok (Number (f x y))
  | Number x, Scalar y | Scalar x, Number y | Scalar x, Scalar y =>
      Ok (Scalar (f x y))
  | Number x, Vector v | Scalar x, Vector v => Ok (Vector (map (f x) v))
  | Vector u, Number y | Vector u, Scalar y =>
      Ok (Vector (map (fun x => f x y) u))
  | Vector u, Vector v => w ← broadcast2 f u v; Ok (Vector w)
  end.

(** [a + b] *)
Definition tensor_add : tensor -> tensor -> result tensor := tensor_map2 Qplus.

(** ** The arithmetic of [reduce_metrics]

    The records hold floating-point numbers, of a Python float or of the
    type of a tensor. [fl q] is the number of the format that the exact
    result [q] of an operation is rounded to. *)

Class NumberFormat : Type :=
  fl : Q -> Q.

(** The integer [0], which [sum] starts from and [log.get(k, 0)] falls
    back to. *)
Definition is_int_zero (x : Q) : bool :=
  match x with
  | 0 # 1 => true
  | _ => false
  end.

(** [x + y]: rounded, and exact when one of the two is [0]. *)
Definition fl_add `{NumberFormat} (x y : Q) : Q :=
  if is_int_zero x then y
  else if is_int_zero y then x
  else fl (x + y).

(** [x / y] for [y] not zero: rounded, and exactly [0] when [x] is. *)
Definition fl_quot `{NumberFormat} (x y : Q) : Q :=
  if Qeq_bool x 0 then 0%Q else fl (x / y).

(** The value of a division of floating-point numbers. *)
Inductive quotient : Type :=
| Finite (q : Q)
| PosInf
| NegInf
| NaN.

(** [x / y] on the elements of tensors: dividing by zero raises nothing
    and gives an infinity with the sign of [x], or [nan] for [0 / 0]. *)
Definition fl_div `{NumberFormat} (x y : Q) : quotient :=
  if Qeq_bool y 0 then
    match Qcompare x 0 with
    | Gt => PosInf
    | Lt => NegInf
    | Eq => NaN
    end
  else Finite (fl_quot x y).

(** The value passed to the logger: the 0- or 1-dimensional result of a
    division. *)
Inductive logged : Type :=
| LScalar (x : quotient)
| LVector (xs : list quotient).

(** [a + b] in [reduce_metrics] *)
Definition py_add `{NumberFormat} : tensor -> tensor -> result tensor :=
  tensor_map2 fl_add.

(** [a / b] in [reduce_metrics]. Between two plain Python numbers a zero
    divisor raises [ZeroDivisionError]; as soon as one operand is a tensor
    the division is that of the elements and raises nothing. *)
Definition tensor_div `{NumberFormat} (a b : tensor) : result logged :=
  match a, b with
  | Number x, Number y =>
      if Qeq_bool y 0 then Raise ZeroDivisionError
      else Ok (LScalar (Finite (fl_quot x y)))
  | Number x, Scalar y | Scalar x, Number y | Scalar x, Scalar y =>
      Ok (LScalar (fl_div x y))
  | Number x, Vector v | Scalar x, Vector v => Ok (LVector (map (fl_div x) v))
  | Vector u, Number y | Vector u, Scalar y =>
      Ok (LVector (map (fun x => fl_div x y) u))
  | Vector u, Vector v => w ← broadcast2 fl_div u v; Ok (LVector w)
  end.

(** [sum(generator)]: [0 + x1 + x2 + ...], from left to right *)
Definition py_sum `{NumberFormat} (xs : list tensor) : result tensor :=
  foldl (fun acc x => a ← acc; py_add a x) (Ok (Number 0%Q)) xs.

(** The same sum on numbers. *)
Definition fl_sum `{NumberFormat} (xs : list Q) : Q := fold_left fl_add xs 0%Q.

(** ** The collaborators the criterions are given *)

(** The loss classes the criterions choose from: [torch.nn.CrossEntropyLoss]
    and the three of the [entmax] package; [EntmaxBisectLoss alpha] is
    [partial(EntmaxBisectLoss, alpha=alpha)]. *)
Inductive loss_class : Type :=
| CrossEntropyLoss
| Entmax15Loss
| SparsemaxLoss
| EntmaxBisectLoss (alpha : Q).

Inductive reduction : Type :=
| reduction_sum
| reduction_none.

(** [cls(ignore_index=i, reduction=r)(logits, target)]: the losses
    themselves belong to the external libraries. *)
Class LossLibrary : Type :=
  apply_loss : loss_class -> Z -> reduction -> matrix -> list Z -> result tensor.

(** The task, of which the base class [FairseqCriterion] reads the padding
    index: [task.target_dictionary.pad()] when the task has a target
    dictionary, [-100] otherwise. *)
Record Task : Type := {
  target_dictionary_pad : option Z
}.

Definition task_padding_idx (task : Task) : Z :=
  match target_dictionary_pad task with
  | Some p => p
  | None => -100
  end.

Record NetOutput : Type := {
  item0 : tensor3
}.

Record Sample (I : Type) : Type := {
  net_input : I;
  target : list (list Z);
  ntokens : Z
}.

Arguments net_input {I} _.
Arguments target {I} _.
Arguments ntokens {I} _.

Record Model (I : Type) : Type := {
  call_model : I -> NetOutput;
  get_targets : Sample I -> NetOutput -> list (list Z)
}.

Arguments call_model {I} _ _.
Arguments get_targets {I} _ _ _.

(** One call of [metrics.log_scalar(key, value, weight, round=round)]. *)
Record log_scalar : Type := {
  key : string;
  value : logged;
  weight : tensor;
  round : nat
}.

(** The metrics logger is a process-wide object: code that logs threads the
    calls received so far, and keeps them when it raises afterwards. *)
Definition logging (A : Type) : Type :=
  list log_scalar -> list log_scalar * result A.

#[global] Instance logging_ret : MRet logging := fun A a m => (m, Ok a).

#[global] Instance logging_bind : MBind logging := fun A B f c m =>
  match c m with
  | (m', Ok a) => f a m'
  | (m', Raise e) => (m', Raise e)
  end.

(** A computation that does not log. *)
Definition pure {A} (r : result A) : logging A := fun m => (m, r).

(** [metrics.log_scalar(key, value, weight, round=round)] *)
Definition metrics_log_scalar (key : string) (value : logged)
    (weight : tensor) (round : nat) : logging unit :=
  fun m => (m ++ [ {| key := key; value := value;
                      weight := weight; round := round |} ], Ok tt).

(** A Python [int] *)
Definition int (n : Z) : tensor := Number (inject_Z n).

(** [log.get(k, 0)] *)
Definition get0 (log : gmap string tensor) (k : string) : tensor :=
  match log !! k with
  | Some v => v
  | None => Number 0%Q
  end.

(** ** entmax_loss.py *)

Module EntmaxLoss.

Record EntmaxLossCriterion : Type := {
  padding_idx : Z;
  sentence_avg : bool;
  criterion : loss_class
}.

Definition __init__ (task : Task) (loss_alpha : Q) (sentence_avg : bool)
  : result EntmaxLossCriterion :=
  let padding_idx := task_padding_idx task in
  if Qlt_bool 1 loss_alpha then
    let criterion :=
      if Qeq_bool loss_alpha 1.5 then Entmax15Loss
      else if Qeq_bool loss_alpha 2 then SparsemaxLoss
      else EntmaxBisectLoss loss_alpha in
    Ok {| padding_idx := padding_idx;
          sentence_avg := sentence_avg;
          criterion := criterion |}
  else Raise AssertionError.

Section Methods.
Context `{LossLibrary} {I : Type}.

Definition compute_loss (self : EntmaxLossCriterion) (model : Model I)
    (net_output : NetOutput) (sample : Sample I) (reduce : bool)
  : result (tensor * tensor) :=
  let logits := item0 net_output in
  let logits := view2 logits in
  let target := view1 (get_targets model sample net_output) in
  loss ← apply_loss (criterion self) (padding_idx self)
           (if reduce then reduction_sum else reduction_none) logits target;
  Ok (loss, loss).

Definition forward (self : EntmaxLossCriterion) (model : Model I)
    (sample : Sample I) (reduce : bool)
  : result (tensor * Z * gmap string tensor) :=
  let net_output := call_model model (net_input sample) in
  '(loss, _) ← compute_loss self model net_output sample reduce;
  let sample_size :=
    if sentence_avg self then size0 (target sample) else ntokens sample in
  let logging_output : gmap string tensor :=
    <["loss" := loss]> (
    <["ntokens" := int (ntokens sample)]> (
    <["nsentences" := int (size0 (target sample))]> (
    <["sample_size" := int sample_size]> ∅))) in
  Ok (loss, sample_size, logging_output).

End Methods.

Definition reduce_metrics `{NumberFormat}
    (logging_outputs : list (gmap string tensor)) : logging unit :=
  loss_sum ← pure (py_sum (map (fun log => get0 log "loss") logging_outputs));
  sample_size ←
    pure (py_sum (map (fun log => get0 log "sample_size") logging_outputs));
  v ← pure (tensor_div loss_sum sample_size);
  metrics_log_scalar "loss" v sample_size 3.

Definition logging_outputs_can_be_summed : bool := true.

(** The methods that receive [self], as calls on the object which hand
    back the object next to their outcome: none of them assigns to an
    attribute of [self]. *)
Inductive call (I : Type) : Type :=
| call_forward (model : Model I) (sample : Sample I) (reduce : bool)
| call_compute_loss (model : Model I) (net_output : NetOutput)
    (sample : Sample I) (reduce : bool).

Arguments call_forward {I} _ _ _.
Arguments call_compute_loss {I} _ _ _ _.

Inductive outcome : Type :=
| out_forward (r : result (tensor * Z * gmap string tensor))
| out_compute_loss (r : result (tensor * tensor)).

Definition invoke `{LossLibrary} {I : Type} (self : EntmaxLossCriterion)
    (c : call I) : EntmaxLossCriterion * outcome :=
  match c with
  | call_forward model sample reduce =>
      (self, out_forward (forward self model sample reduce))
  | call_compute_loss model net_output sample reduce =>
      (self, out_compute_loss (compute_loss self model net_output sample reduce))
  end.

Definition run `{LossLibrary} {I : Type} (self : EntmaxLossCriterion)
    (calls : list (call I)) : EntmaxLossCriterion :=
  foldl (fun s c => fst (invoke s c)) self calls.

End EntmaxLoss.

(** ** fyls_loss.py *)

Module FylsLoss.

Record FenchelYoungLabelSmoothingLossCriterion : Type := {
  padding_idx : Z;
  sentence_avg : bool;
  label_smoothing : Q;
  criterion : loss_class
}.

(** The two [if] statements of the constructor run one after the other:
    the first binds [criterion] when [loss_alpha == 1], the second has an
    [else] branch and binds it again in every case. *)
Definition __init__ (task : Task) (loss_alpha label_smoothing : Q)
    (sentence_avg : bool)
  : result FenchelYoungLabelSmoothingLossCriterion :=
  let padding_idx := task_padding_idx task in
  if Qle_bool 1 loss_alpha then
    let criterion : option loss_class :=
      if Qeq_bool loss_alpha 1 then Some CrossEntropyLoss else None in
    let criterion : loss_class :=
      if Qeq_bool loss_alpha 1.5 then Entmax15Loss
      else if Qeq_bool loss_alpha 2 then SparsemaxLoss
      else EntmaxBisectLoss loss_alpha in
    Ok {| padding_idx := padding_idx;
          sentence_avg := sentence_avg;
          label_smoothing := label_smoothing;
          criterion := criterion |}
  else Raise AssertionError.

(** [logits.gather(1, target.unsqueeze(1)).squeeze(1)]: the index may not
    have more rows than the input, and every index must be a column. *)
Definition gather1 (logits : matrix) (target : list Z) : result (list Q) :=
  if (length target <=? length (rows logits))%nat then
    mapM (fun '(r, t) =>
            if (0 <=? t) && (t <? size_last logits)
            then Ok (nth (Z.to_nat t) r 0%Q)
            else Raise IndexError)
         (zip (rows logits) target)
  else Raise RuntimeError.

(** [logits.sum(dim=1)] *)
Definition sum_dim1 (logits : matrix) : list Q := map Qsum (rows logits).

(** [logits[:, j]], for a column [j] in range *)
Definition column (logits : matrix) (j : Z) : list Q :=
  map (fun r => nth (Z.to_nat j) r 0%Q) (rows logits).

(** [logits.mean(dim=1)] *)
Definition mean_dim1 (logits : matrix) : list Q :=
  map (fun r => (Qsum r / inject_Z (size_last logits))%Q) (rows logits).

(** [xs.masked_fill_(mask, v)], in place: the mask is broadcast to the
    shape of [xs]. *)
Definition masked_fill_ (xs : list Q) (mask : list bool) (v : Q)
  : result (list Q) :=
  if (length mask =? length xs)%nat
  then Ok (zip_with (fun x (b : bool) => if b then v else x) xs mask)
  else match mask with
       | [b] => Ok (map (fun x => if b then v else x) xs)
       | _ => Raise RuntimeError
       end.

(** The [z_bar] of [_compute_smoothing] (lines 75 to 79). A division by
    [logits.size(-1) - 1 = 0] has no finite value in torch; [Qdiv] is total
    and gives [0] there. *)
Definition z_bar (self : FenchelYoungLabelSmoothingLossCriterion)
    (logits : matrix) : result (list Q) :=
  if (0 <=? padding_idx self) && (padding_idx self <? size_last logits) then
    z_sum ← broadcast2 Qminus (sum_dim1 logits)
                              (column logits (padding_idx self));
    Ok (map (fun x => (x / inject_Z (size_last logits - 1))%Q) z_sum)
  else Ok (mean_dim1 logits).

Definition _compute_smoothing (self : FenchelYoungLabelSmoothingLossCriterion)
    (logits : matrix) (target : list Z) (reduce : bool) : result tensor :=
  z_ystar ← gather1 logits target;
  z_bar ← z_bar self logits;
  d ← broadcast2 Qminus z_ystar z_bar;
  let loss_smooth := map (Qmult (label_smoothing self)) d in
  loss_smooth ← masked_fill_ loss_smooth
                  (map (fun t => t =? padding_idx self) target) 0%Q;
  if reduce then Ok (Scalar (Qsum loss_smooth)) else Ok (Vector loss_smooth).

Section Methods.
Context `{LossLibrary} {I : Type}.

Definition compute_loss (self : FenchelYoungLabelSmoothingLossCriterion)
    (model : Model I) (net_output : NetOutput) (sample : Sample I)
    (reduce : bool) : result (tensor * tensor) :=
  let logits := item0 net_output in
  let logits := view2 logits in
  let target := view1 (get_targets model sample net_output) in
  loss_ystar ← apply_loss (criterion self) (padding_idx self)
                 (if reduce then reduction_sum else reduction_none)
                 logits target;
  loss_smooth ← _compute_smoothing self logits target reduce;
  loss ← tensor_add loss_ystar loss_smooth;
  Ok (loss, loss_ystar).

Definition forward (self : FenchelYoungLabelSmoothingLossCriterion)
    (model : Model I) (sample : Sample I) (reduce : bool)
  : result (tensor * Z * gmap string tensor) :=
  let net_output := call_model model (net_input sample) in
  '(loss, loss_ystar) ← compute_loss self model net_output sample reduce;
  let sample_size :=
    if sentence_avg self then size0 (target sample) else ntokens sample in
  let logging_output : gmap string tensor :=
    <["loss" := loss]> (
    <["loss_ystar" := loss_ystar]> (
    <["ntokens" := int (ntokens sample)]> (
    <["nsentences" := int (size0 (target sample))]> (
    <["sample_size" := int sample_size]> ∅)))) in
  Ok (loss, sample_size, logging_output).

End Methods.

Definition reduce_metrics `{NumberFormat}
    (logging_outputs : list (gmap string tensor)) : logging unit :=
  loss_sum ← pure (py_sum (map (fun log => get0 log "loss") logging_outputs));
  base_loss_sum ←
    pure (py_sum (map (fun log => get0 log "loss_ystar") logging_outputs));
  sample_size ←
    pure (py_sum (map (fun log => get0 log "sample_size") logging_outputs));
  v ← pure (tensor_div loss_sum sample_size);
  _ ← metrics_log_scalar "loss" v sample_size 3;
  b ← pure (tensor_div base_loss_sum sample_size);
  metrics_log_scalar "base_loss" b sample_size 3.

Definition logging_outputs_can_be_summed : bool := true.

(** The methods that receive [self], as calls on the object, as for the
    unsmoothed criterion. *)
Inductive call (I : Type) : Type :=
| call_forward (model : Model I) (sample : Sample I) (reduce : bool)
| call_compute_smoothing (logits : matrix) (target : list Z) (reduce : bool)
| call_compute_loss (model : Model I) (net_output : NetOutput)
    (sample : Sample I) (reduce : bool).

Arguments call_forward {I} _ _ _.
Arguments call_compute_smoothing {I} _ _ _.
Arguments call_compute_loss {I} _ _ _ _.

Inductive outcome : Type :=
| out_forward (r : result (tensor * Z * gmap string tensor))
| out_compute_smoothing (r : result tensor)
| out_compute_loss (r : result (tensor * tensor)).

Definition invoke `{LossLibrary} {I : Type}
    (self : FenchelYoungLabelSmoothingLossCriterion) (c : call I)
  : FenchelYoungLabelSmoothingLossCriterion * outcome :=
  match c with
  | call_forward model sample reduce =>
      (self, out_forward (forward self model sample reduce))
  | call_compute_smoothing logits target reduce =>
      (self, out_compute_smoothing (_compute_smoothing self logits target reduce))
  | call_compute_loss model net_output sample reduce =>
      (self, out_compute_loss (compute_loss self model net_output sample reduce))
  end.

Definition run `{LossLibrary} {I : Type}
    (self : FenchelYoungLabelSmoothingLossCriterion) (calls : list (call I))
  : FenchelYoungLabelSmoothingLossCriterion :=
  foldl (fun s c => fst (invoke s c)) self calls.

End FylsLoss.

(** ** What the metrics logger shows *)

(** Rounding to the nearest integer, ties to the even one, as Python's
    [round]. *)
Definition round_half_even (q : Q) : Z :=
  let f := Qfloor q in
  match Qcompare (q - inject_Z f) (1 # 2) with
  | Lt => f
  | Gt => f + 1
  | Eq => if Z.even f then f else f + 1
  end.

(** [round(q, ndigits)] *)
Definition py_round (q : Q) (ndigits : nat) : Q :=
  let p := inject_Z (10 ^ Z.of_nat ndigits) in
  (inject_Z (round_half_even (q * p)) / p)%Q.

(** [round(x, ndigits)] on the value of a division: an infinity and [nan]
    are left as they are. *)
Definition round_quotient (x : quotient) (ndigits : nat) : quotient :=
  match x with
  | Finite v => Finite (py_round v ndigits)
  | _ => x
  end.

(** Modelled from the spec: the metrics logger of fairseq is not part of
    the sources; the scalar it reports for a [log_scalar] call is the value
    rounded to [round] decimal digits. *)
Definition reported (c : log_scalar) : option quotient :=
  match value c with
  | LScalar v => Some (round_quotient v (round c))
  | LVector _ => None
  end.

(** The named scalars the logger reports for the calls it received. *)
Definition report (m : list log_scalar) : list (string * option quotient) :=
  map (fun c => (key c, reported c)) m.

(** What the logger reports after a computation that started with a fresh
    logger, and how the computation ended. *)
Definition report_run (c : logging unit)
  : list (string * option quotient) * result unit :=
  let '(m, r) := c [] in (report m, r).

(** ** Number formats *)

(** No rounding: the arithmetic of the rationals. *)
Definition exact : NumberFormat := fun q => q.

(** [floor (log2 |q|)], for [q] not zero. *)
Definition ilog2 (q : Q) : Z :=
  let c := Z.log2 (Z.abs (Qnum q)) - Z.log2 (Zpos (Qden q)) in
  if Qle_bool (Qpower 2 c) (Qabs q) then c else c - 1.

(** Rounding to the nearest number with a significand of [p] bits, ties to
    the even significand; the exponent is not bounded. *)
Definition round_to (p : Z) (q : Q) : Q :=
  if Qeq_bool q 0 then 0%Q
  else
    let ulp := Qpower 2 (ilog2 q - (p - 1)) in
    (inject_Z (round_half_even (q / ulp)) * ulp)%Q.

(** The double-precision numbers of a Python [float] and of a tensor of
    type [float64], and the single-precision numbers of a tensor of type
    [float32]. *)
Definition binary64 : NumberFormat := round_to 53.

Definition binary32 : NumberFormat := round_to 24.

(** ** Logging records of scalars *)

(** A logging record whose fields are all plain numbers. *)
Definition scalar_record (log : gmap string Q) : gmap string tensor :=
  Number <$> log.

(** The sum of the field [k] over the records; a record without the field
    counts for [0]. *)
Definition field_sum `{NumberFormat} (k : string)
    (logs : list (gmap string Q)) : Q :=
  fl_sum (map (fun log => default 0%Q (log !! k)) logs).

(** Numbers and 0-dimensional tensors are the scalars. *)
Definition is_number (t : tensor) : bool :=
  match t with
  | Number _ => true
  | _ => false
  end.

Definition is_scalar (t : tensor) : bool :=
  match t with
  | Vector _ => false
  | _ => true
  end.

Definition scalar_value (t : tensor) : Q :=
  match t with
  | Number x | Scalar x => x
  | Vector _ => 0%Q
  end.

Definition scalar_of (number : bool) (x : Q) : tensor :=
  if number then Number x else Scalar x.

(** The field [k] is a scalar in every record (or is missing). *)
Definition scalar_field (k : string) (logs : list (gmap string tensor))
  : Prop :=
  Forall (fun log => is_scalar (get0 log k) = true) logs.

(** The field [k] is a plain number in every record (or is missing). *)
Definition plain_numbers (k : string) (logs : list (gmap string tensor))
  : bool :=
  forallb (fun log => is_number (get0 log k)) logs.

(** The sum of the scalars of the field [k]. *)
Definition field_total `{NumberFormat} (k : string)
    (logs : list (gmap string tensor)) : Q :=
  fl_sum (map (fun log => scalar_value (get0 log k)) logs).

(** ** Sample inputs *)

Module Samples.

(** A stand-in for the external losses: the number of targets that are not
    the ignored index, per position or summed. *)
Definition counting_loss : LossLibrary :=
  fun _ ignore_index r _ target =>
    let per_position :=
      map (fun t => if t =? ignore_index then 0%Q else 1%Q) target in
    match r with
    | reduction_sum => Ok (Scalar (Qsum per_position))
    | reduction_none => Ok (Vector per_position)
    end.

(** Vocabulary of 5, padding index 0, one sentence of two positions with
    targets [2; 0]. *)
Definition logits : tensor3 :=
  {| dim_last := 5;
     blocks := [[ [1; 2; 3; 4; 5]; [5; 4; 3; 2; 1] ]]%Q |}.

(** The same logits with other values in the row of the padding
    position. *)
Definition logits_other_padding : tensor3 :=
  {| dim_last := 5;
     blocks := [[ [1; 2; 3; 4; 5]; [7; 7; 0; -3; 8] ]]%Q |}.

Definition model : Model unit :=
  {| call_model := fun _ => {| item0 := logits |};
     get_targets := fun sample _ => target sample |}.

Definition sample : Sample unit :=
  {| net_input := tt; target := [[2; 0]]; ntokens := 2 |}.

Definition task : Task := {| target_dictionary_pad := Some 0 |}.

Definition fyls : FylsLoss.FenchelYoungLabelSmoothingLossCriterion :=
  {| FylsLoss.padding_idx := 0;
     FylsLoss.sentence_avg := false;
     FylsLoss.label_smoothing := 1 # 10;
     FylsLoss.criterion := Entmax15Loss |}.

(** The smoothing criterion with the defaults of its configuration. *)
Definition fyls_zero : FylsLoss.FenchelYoungLabelSmoothingLossCriterion :=
  {| FylsLoss.padding_idx := 0;
     FylsLoss.sentence_avg := false;
     FylsLoss.label_smoothing := 0;
     FylsLoss.criterion := Entmax15Loss |}.

Definition entmax : EntmaxLoss.EntmaxLossCriterion :=
  {| EntmaxLoss.padding_idx := 0;
     EntmaxLoss.sentence_avg := false;
     EntmaxLoss.criterion := Entmax15Loss |}.

(** A smoothing criterion of a task without target dictionary: the
    padding index is [-100], not a column. *)
Definition fyls_no_padding : FylsLoss.FenchelYoungLabelSmoothingLossCriterion :=
  {| FylsLoss.padding_idx := -100;
     FylsLoss.sentence_avg := false;
     FylsLoss.label_smoothing := 1 # 10;
     FylsLoss.criterion := Entmax15Loss |}.

(** The base criterion as its constructor returns it for
    [loss_alpha = 1.2]. *)
Definition entmax_bisect : EntmaxLoss.EntmaxLossCriterion :=
  {| EntmaxLoss.padding_idx := 0;
     EntmaxLoss.sentence_avg := false;
     EntmaxLoss.criterion := EntmaxBisectLoss 1.2 |}.

(** The records of two workers: sample sizes 10 and 20, loss sums 5 and
    15. *)
Definition two_workers : list (gmap string Q) :=
  [ <["loss" := 5%Q]> (<["sample_size" := 10%Q]> ∅);
    <["loss" := 15%Q]> (<["sample_size" := 20%Q]> ∅) ].

(** The fields [reduce_metrics] reads in the record [forward] returns for
    a batch: the loss, a tensor, and the sample size, an [int]. *)
Definition batch_record (loss : Q) (sample_size : Z) : gmap string tensor :=
  <["loss" := Scalar loss]> (<["sample_size" := int sample_size]> ∅).



(** The two records summed field by field, as a trainer sums them across
    workers. *)
Definition two_workers_summed : gmap string Q :=
  <["loss" := 20%Q]> (<["loss_ystar" := 0%Q]> (<["sample_size" := 30%Q]> ∅)).

End Samples.

(** Case analysis on the outcome of the external loss in the goal. *)
Ltac case_apply_loss b e E :=
  match goal with
  | |- context [apply_loss ?c ?i ?r ?l ?t] =>
      destruct (apply_loss c i r l t) as [b|e] eqn:E; simpl
  end.

(** * Properties *)

(** ** Arithmetic and list facts *)



Lemma Qplus_0_r_eq (x : Q) : (x + 0 = x)%Q.
Proof.
  destruct x as [a b]. unfold Qplus. simpl. f_equal.
  - lia.
  - apply Pos.mul_1_r.
Qed.


Lemma Qlt_bool_iff (x y : Q) : Qlt_bool x y = true <-> (x < y)%Q.
Proof. unfold Qlt_bool, Qlt. apply Z.ltb_lt. Qed.

Lemma Qlt_bool_false_iff (x y : Q) : Qlt_bool x y = false <-> (y <= x)%Q.
Proof. unfold Qlt_bool, Qle. apply Z.ltb_ge. Qed.

Lemma Qle_bool_false_iff (x y : Q) : Qle_bool x y = false <-> (y < x)%Q.
Proof. unfold Qle_bool, Qlt. apply Z.leb_gt. Qed.

Lemma broadcast2_same_length {A B C} (f : A -> B -> C) u v :
  length u = length v -> broadcast2 f u v = Ok (zip_with f u v).
Proof.
  intros E. unfold broadcast2. now rewrite E, Nat.eqb_refl.
Qed.

(** ** The code on sample inputs *)

Example smoothing_on_sample :
  FylsLoss._compute_smoothing Samples.fyls (view2 Samples.logits) [2; 0] false
  = Ok (Vector [(-2 # 40)%Q; 0%Q]).
Proof. reflexivity. Qed.

Example smoothing_on_sample_reduced :
  FylsLoss._compute_smoothing Samples.fyls (view2 Samples.logits) [2; 0] true
  = Ok (Scalar (-2 # 40)).
Proof. reflexivity. Qed.

Example gather_out_of_range :
  FylsLoss._compute_smoothing Samples.fyls (view2 Samples.logits) [2; 5] true
  = Raise IndexError.
Proof. reflexivity. Qed.

Example fyls_init_default :
  FylsLoss.__init__ Samples.task 1.5 0 false = Ok Samples.fyls_zero.
Proof. reflexivity. Qed.

Example entmax_init_rejects_one :
  EntmaxLoss.__init__ Samples.task 1 false = Raise AssertionError.
Proof. reflexivity. Qed.

Example reduce_metrics_infinite_loss :
  EntmaxLoss.reduce_metrics (H := binary64) [Samples.batch_record 3 0] []
  = ([ {| key := "loss"; value := LScalar PosInf;
          weight := Number 0; round := 3 |} ], Ok tt).
Proof. reflexivity. Qed.

(** ** The arithmetic of a number format *)

Lemma is_int_zero_true (x : Q) : is_int_zero x = true -> x = 0%Q.
Proof. destruct x as [[|n|n] [d|d|]]; simpl; congruence. Qed.

Lemma fl_add_0_l `{NumberFormat} (x : Q) : fl_add 0 x = x.
Proof. reflexivity. Qed.

Lemma fl_add_0_r `{NumberFormat} (x : Q) : fl_add x 0 = x.
Proof.
  unfold fl_add. destruct (is_int_zero x) eqn:E; [|reflexivity].
  symmetry. now apply is_int_zero_true.
Qed.


Lemma fl_div_nonzero `{NumberFormat} (x y : Q) :
  Qeq_bool y 0 = false -> fl_div x y = Finite (fl_quot x y).
Proof. unfold fl_div. now intros ->. Qed.

Lemma fl_div_zero_not_finite `{NumberFormat} (x y q : Q) :
  Qeq_bool y 0 = true -> fl_div x y <> Finite q.
Proof.
  unfold fl_div. intros ->. destruct (Qcompare x 0); discriminate.
Qed.


(** ** Aggregation of logging records *)

Lemma py_add_scalars `{NumberFormat} (n : bool) (a : Q) (t : tensor) :
  is_scalar t = true ->
  py_add (scalar_of n a) t
  = Ok (scalar_of (n && is_number t) (fl_add a (scalar_value t))).
Proof. destruct n, t as [x|x|u]; simpl; intros [=]; reflexivity. Qed.

Lemma py_sum_from `{NumberFormat} (k : string)
    (logs : list (gmap string tensor)) (n : bool) (a : Q) :
  scalar_field k logs ->
  foldl (fun acc x => a ← acc; py_add a x) (Ok (scalar_of n a))
        (map (fun log => get0 log k) logs)
  = Ok (scalar_of (n && plain_numbers k logs)
          (fold_left fl_add
             (map (fun log => scalar_value (get0 log k)) logs) a)).
Proof.
  intros Hs. revert n a.
  induction Hs as [|log logs Hlog _ IH]; intros n a.
  - simpl. now rewrite andb_true_r.
  - cbn [map foldl fold_left plain_numbers forallb mbind result_bind].
    rewrite (py_add_scalars n a _ Hlog), IH.
    now rewrite andb_assoc.
Qed.

Lemma py_sum_field_total `{NumberFormat} (k : string)
    (logs : list (gmap string tensor)) :
  scalar_field k logs ->
  py_sum (map (fun log => get0 log k) logs)
  = Ok (scalar_of (plain_numbers k logs) (field_total k logs)).
Proof. intros Hs. exact (py_sum_from k logs true 0%Q Hs). Qed.

Lemma tensor_div_scalars `{NumberFormat} (nx ny : bool) (x y : Q) :
  tensor_div (scalar_of nx x) (scalar_of ny y)
  = if nx && ny && Qeq_bool y 0 then Raise ZeroDivisionError
    else Ok (LScalar (fl_div x y)).
Proof.
  destruct nx, ny; simpl; try reflexivity.
  destruct (Qeq_bool y 0) eqn:E; [reflexivity|].
  now rewrite fl_div_nonzero.
Qed.

(** What the base [reduce_metrics] does on records of scalars. *)
Lemma entmax_reduce_metrics_scalar_fields `{NumberFormat}
    (logs : list (gmap string tensor)) (m : list log_scalar) :
  scalar_field "loss" logs ->
  scalar_field "sample_size" logs ->
  EntmaxLoss.reduce_metrics logs m =
  if plain_numbers "loss" logs && plain_numbers "sample_size" logs
     && Qeq_bool (field_total "sample_size" logs) 0
  then (m, Raise ZeroDivisionError)
  else (m ++ [ {| key := "loss";
                  value := LScalar (fl_div (field_total "loss" logs)
                                           (field_total "sample_size" logs));
                  weight := scalar_of (plain_numbers "sample_size" logs)
                              (field_total "sample_size" logs);
                  round := 3 |} ], Ok tt).
Proof.
  intros Hl Hs.
  unfold EntmaxLoss.reduce_metrics, mbind, logging_bind, pure.
  rewrite (py_sum_field_total _ _ Hl), (py_sum_field_total _ _ Hs).
  rewrite tensor_div_scalars.
  now destruct (plain_numbers "loss" logs && plain_numbers "sample_size" logs
                && Qeq_bool (field_total "sample_size" logs) 0).
Qed.

(** What [reduce_metrics] of the smoothing criterion does on records of
    scalars: the loss is logged before the base loss is divided. *)
Lemma fyls_reduce_metrics_scalar_fields `{NumberFormat}
    (logs : list (gmap string tensor)) (m : list log_scalar) :
  scalar_field "loss" logs ->
  scalar_field "loss_ystar" logs ->
  scalar_field "sample_size" logs ->
  let loss_call :=
    {| key := "loss";
       value := LScalar (fl_div (field_total "loss" logs)
                                (field_total "sample_size" logs));
       weight := scalar_of (plain_numbers "sample_size" logs)
                   (field_total "sample_size" logs);
       round := 3 |} in
  let base_loss_call :=
    {| key := "base_loss";
       value := LScalar (fl_div (field_total "loss_ystar" logs)
                                (field_total "sample_size" logs));
       weight := scalar_of (plain_numbers "sample_size" logs)
                   (field_total "sample_size" logs);
       round := 3 |} in
  FylsLoss.reduce_metrics logs m =
  if plain_numbers "loss" logs && plain_numbers "sample_size" logs
     && Qeq_bool (field_total "sample_size" logs) 0
  then (m, Raise ZeroDivisionError)
  else if plain_numbers "loss_ystar" logs && plain_numbers "sample_size" logs
          && Qeq_bool (field_total "sample_size" logs) 0
  then (m ++ [loss_call], Raise ZeroDivisionError)
  else (m ++ [loss_call; base_loss_call], Ok tt).
Proof.
  intros Hl Hb Hs loss_call base_loss_call.
  unfold FylsLoss.reduce_metrics, mbind, logging_bind, pure.
  rewrite (py_sum_field_total _ _ Hl), (py_sum_field_total _ _ Hb),
          (py_sum_field_total _ _ Hs).
  rewrite !tensor_div_scalars.
  destruct (plain_numbers "loss" logs && plain_numbers "sample_size" logs
            && Qeq_bool (field_total "sample_size" logs) 0); [reflexivity|].
  unfold metrics_log_scalar.
  destruct (plain_numbers "loss_ystar" logs
            && plain_numbers "sample_size" logs
            && Qeq_bool (field_total "sample_size" logs) 0); [reflexivity|].
  now rewrite <- app_assoc.
Qed.

(** Records of plain numbers. *)

Lemma get0_scalar_record (log : gmap string Q) (k : string) :
  get0 (scalar_record log) k = Number (default 0%Q (log !! k)).
Proof.
  unfold get0, scalar_record. rewrite lookup_fmap.
  now destruct (log !! k).
Qed.

Lemma scalar_record_scalar_field (k : string) (logs : list (gmap string Q)) :
  scalar_field k (map scalar_record logs).
Proof.
  unfold scalar_field. apply Forall_forall. intros log Hin.
  apply list_elem_of_In, in_map_iff in Hin. destruct Hin as (l & <- & _).
  now rewrite get0_scalar_record.
Qed.

Lemma scalar_record_plain_numbers (k : string) (logs : list (gmap string Q)) :
  plain_numbers k (map scalar_record logs) = true.
Proof.
  unfold plain_numbers. induction logs as [|log logs IH]; simpl;
    [reflexivity|].
  now rewrite get0_scalar_record, IH.
Qed.

Lemma scalar_record_field_total `{NumberFormat} (k : string)
    (logs : list (gmap string Q)) :
  field_total k (map scalar_record logs) = field_sum k logs.
Proof.
  unfold field_total, field_sum. f_equal. rewrite map_map.
  apply map_ext. intros log. now rewrite get0_scalar_record.
Qed.

Lemma entmax_reduce_metrics_scalars `{NumberFormat}
    (logs : list (gmap string Q)) (m : list log_scalar) :
  EntmaxLoss.reduce_metrics (map scalar_record logs) m =
  if Qeq_bool (field_sum "sample_size" logs) 0
  then (m, Raise ZeroDivisionError)
  else (m ++ [ {| key := "loss";
                  value := LScalar (Finite (fl_quot (field_sum "loss" logs)
                                      (field_sum "sample_size" logs)));
                  weight := Number (field_sum "sample_size" logs);
                  round := 3 |} ], Ok tt).
Proof.
  rewrite entmax_reduce_metrics_scalar_fields
    by apply scalar_record_scalar_field.
  rewrite !scalar_record_plain_numbers, !scalar_record_field_total. simpl.
  destruct (Qeq_bool (field_sum "sample_size" logs) 0) eqn:E; [reflexivity|].
  now rewrite fl_div_nonzero.
Qed.

Lemma fyls_reduce_metrics_scalars `{NumberFormat}
    (logs : list (gmap string Q)) (m : list log_scalar) :
  FylsLoss.reduce_metrics (map scalar_record logs) m =
  if Qeq_bool (field_sum "sample_size" logs) 0
  then (m, Raise ZeroDivisionError)
  else (m ++ [ {| key := "loss";
                  value := LScalar (Finite (fl_quot (field_sum "loss" logs)
                                      (field_sum "sample_size" logs)));
                  weight := Number (field_sum "sample_size" logs);
                  round := 3 |};
               {| key := "base_loss";
                  value := LScalar (Finite (fl_quot (field_sum "loss_ystar" logs)
                                      (field_sum "sample_size" logs)));
                  weight := Number (field_sum "sample_size" logs);
                  round := 3 |} ], Ok tt).
Proof.
  rewrite fyls_reduce_metrics_scalar_fields
    by apply scalar_record_scalar_field.
  rewrite !scalar_record_plain_numbers, !scalar_record_field_total. simpl.
  destruct (Qeq_bool (field_sum "sample_size" logs) 0) eqn:E; [reflexivity|].
  now rewrite !fl_div_nonzero.
Qed.

(** C7, with the sequences on which the division raises set apart. For
    every sequence of logging records whose [loss] and [sample_size] fields
    are scalars, [reduce_metrics] logs with [round=3] the quotient of the
    sum of the [loss] fields by the sum of the [sample_size] fields, sums
    and quotient being those of the number format, so that the reported
    loss is that quotient rounded to 3 decimal digits: a rounded number
    when the sample sizes do not sum to zero, an infinity or [nan]
    otherwise. The smoothing variant reports [base_loss] likewise from the
    [loss_ystar] fields. The exception: when the fields divided are plain
    Python numbers in every record and the sample sizes sum to zero, the
    division raises [ZeroDivisionError] and its quotient is not reported.
    Two workers' records with sample sizes 10 and 20 and loss sums 5 and
    15 give a reported loss of 0.667. *)
Theorem reduce_metrics_reports_rounded_quotient :
  (forall (F : NumberFormat) (logs : list (gmap string tensor)),
     scalar_field "loss" logs ->
     scalar_field "sample_size" logs ->
     report_run (EntmaxLoss.reduce_metrics logs) =
     if plain_numbers "loss" logs && plain_numbers "sample_size" logs
        && Qeq_bool (field_total "sample_size" logs) 0
     then ([], Raise ZeroDivisionError)
     else ([ ("loss",
              Some (round_quotient
                      (fl_div (field_total "loss" logs)
                              (field_total "sample_size" logs)) 3)) ],
           Ok tt))
  /\ (forall (F : NumberFormat) (logs : list (gmap string tensor)),
     scalar_field "loss" logs ->
     scalar_field "loss_ystar" logs ->
     scalar_field "sample_size" logs ->
     report_run (FylsLoss.reduce_metrics logs) =
     if plain_numbers "loss" logs && plain_numbers "sample_size" logs
        && Qeq_bool (field_total "sample_size" logs) 0
     then ([], Raise ZeroDivisionError)
     else if plain_numbers "loss_ystar" logs
             && plain_numbers "sample_size" logs
             && Qeq_bool (field_total "sample_size" logs) 0
     then ([ ("loss",
              Some (round_quotient
                      (fl_div (field_total "loss" logs)
                              (field_total "sample_size" logs)) 3)) ],
           Raise ZeroDivisionError)
     else ([ ("loss",
              Some (round_quotient
                      (fl_div (field_total "loss" logs)
                              (field_total "sample_size" logs)) 3));
             ("base_loss",
              Some (round_quotient
                      (fl_div (field_total "loss_ystar" logs)
                              (field_total "sample_size" logs)) 3)) ],
           Ok tt))
  /\ (forall (F : NumberFormat) (x y : Q),
     ~ (y == 0)%Q ->
     round_quotient (fl_div x y) 3 = Finite (py_round (fl_quot x y) 3))
  /\ (forall (F : NumberFormat) (x y q : Q),
     (y == 0)%Q -> round_quotient (fl_div x y) 3 <> Finite q)
  /\ report_run (EntmaxLoss.reduce_metrics (H := binary64)
                   (map scalar_record Samples.two_workers))
     = ([ ("loss", Some (Finite 0.667)) ], Ok tt)
  /\ report_run (EntmaxLoss.reduce_metrics (H := binary32)
                   (map scalar_record Samples.two_workers))
     = ([ ("loss", Some (Finite 0.667)) ], Ok tt).
Proof.
  split; [|split; [|split; [|split; [|split]]]].
  - intros F logs Hl Hs. unfold report_run.
    rewrite (entmax_reduce_metrics_scalar_fields logs [] Hl Hs).
    now destruct (plain_numbers "loss" logs
                  && plain_numbers "sample_size" logs
                  && Qeq_bool (field_total "sample_size" logs) 0).
  - intros F logs Hl Hb Hs. unfold report_run.
    rewrite (fyls_reduce_metrics_scalar_fields logs [] Hl Hb Hs).
    cbv zeta.
    destruct (plain_numbers "loss" logs
              && plain_numbers "sample_size" logs
              && Qeq_bool (field_total "sample_size" logs) 0);
      [reflexivity|].
    now destruct (plain_numbers "loss_ystar" logs
                  && plain_numbers "sample_size" logs
                  && Qeq_bool (field_total "sample_size" logs) 0).
  - intros F x y Hy. rewrite fl_div_nonzero; [reflexivity|].
    destruct (Qeq_bool y 0) eqn:E; [|reflexivity].
    apply Qeq_bool_eq in E. contradiction.
  - intros F x y q Hy. apply Qeq_eq_bool in Hy.
    unfold fl_div. rewrite Hy. destruct (Qcompare x 0); discriminate.
  - vm_compute. reflexivity.
  - vm_compute. reflexivity.
Qed.

(** On no record at all the sums are the integer [0] and the division
    raises: no loss is reported. *)
Lemma reduce_metrics_of_no_record_raises :
  report_run (EntmaxLoss.reduce_metrics (H := binary64) [])
  = ([], Raise ZeroDivisionError)
  /\ report_run (FylsLoss.reduce_metrics (H := binary64) [])
     = ([], Raise ZeroDivisionError).
Proof. split; reflexivity. Qed.











(** ** Construction *)

Lemma entmax_init_ok (task : Task) (loss_alpha : Q) (sentence_avg : bool) :
  (1 < loss_alpha)%Q ->
  EntmaxLoss.__init__ task loss_alpha sentence_avg =
  Ok {| EntmaxLoss.padding_idx := task_padding_idx task;
        EntmaxLoss.sentence_avg := sentence_avg;
        EntmaxLoss.criterion :=
          if Qeq_bool loss_alpha 1.5 then Entmax15Loss
          else if Qeq_bool loss_alpha 2 then SparsemaxLoss
          else EntmaxBisectLoss loss_alpha |}.
Proof.
  intros Hlt. unfold EntmaxLoss.__init__.
  apply Qlt_bool_iff in Hlt. now rewrite Hlt.
Qed.

Lemma entmax_run_id `{LossLibrary} {I : Type}
    (self : EntmaxLoss.EntmaxLossCriterion) (calls : list (EntmaxLoss.call I)) :
  EntmaxLoss.run self calls = self.
Proof.
  unfold EntmaxLoss.run. induction calls as [|c calls IH]; simpl.
  - reflexivity.
  - destruct c; simpl; exact IH.
Qed.

Lemma fyls_run_id `{LossLibrary} {I : Type}
    (self : FylsLoss.FenchelYoungLabelSmoothingLossCriterion)
    (calls : list (FylsLoss.call I)) :
  FylsLoss.run self calls = self.
Proof.
  unfold FylsLoss.run. induction calls as [|c calls IH]; simpl.
  - reflexivity.
  - destruct c; simpl; exact IH.
Qed.

(** The constructor of the smoothing criterion never binds the
    cross-entropy loss, whatever [loss_alpha] is. *)
Lemma fyls_init_never_cross_entropy (task : Task) (loss_alpha eps : Q)
    (sentence_avg : bool) (self : FylsLoss.FenchelYoungLabelSmoothingLossCriterion) :
  FylsLoss.__init__ task loss_alpha eps sentence_avg = Ok self ->
  FylsLoss.criterion self <> CrossEntropyLoss.
Proof.
  unfold FylsLoss.__init__. destruct (Qle_bool 1 loss_alpha); [|discriminate].
  intros [= <-]. simpl.
  destruct (Qeq_bool loss_alpha 1.5); [discriminate|].
  destruct (Qeq_bool loss_alpha 2); discriminate.
Qed.

(** C1. Constructed with [loss_alpha = 1], the smoothing criterion ends up
    bound to the bisection loss with [alpha = 1], not to the cross-entropy
    loss: the second [if] of the constructor rebinds what the first one
    bound. *)
Theorem fyls_init_alpha_one_binds_bisect :
  forall (task : Task) (eps : Q) (sentence_avg : bool),
    FylsLoss.__init__ task 1 eps sentence_avg =
    Ok {| FylsLoss.padding_idx := task_padding_idx task;
          FylsLoss.sentence_avg := sentence_avg;
          FylsLoss.label_smoothing := eps;
          FylsLoss.criterion := EntmaxBisectLoss 1 |}
    /\ EntmaxBisectLoss 1 <> CrossEntropyLoss.
Proof.
  intros task eps sentence_avg. split.
  - reflexivity.
  - discriminate.
Qed.

(** C4. For [loss_alpha > 1] the constructor of the base criterion returns
    a criterion bound to [Entmax15Loss] when [loss_alpha] is 1.5, to
    [SparsemaxLoss] when it is 2, and to the bisection loss with that
    [alpha] otherwise; whatever methods are called on the criterion
    afterwards, it stays the object the constructor returned, with the same
    loss bound. *)
Theorem entmax_init_selects_loss (task : Task) (loss_alpha : Q)
    (sentence_avg : bool) :
  (1 < loss_alpha)%Q ->
  exists self,
    EntmaxLoss.__init__ task loss_alpha sentence_avg = Ok self
    /\ (loss_alpha == 1.5 -> EntmaxLoss.criterion self = Entmax15Loss)%Q
    /\ (loss_alpha == 2 -> EntmaxLoss.criterion self = SparsemaxLoss)%Q
    /\ (~ loss_alpha == 1.5 -> ~ loss_alpha == 2 ->
        EntmaxLoss.criterion self = EntmaxBisectLoss loss_alpha)%Q
    /\ forall (L : LossLibrary) (I : Type) (calls : list (EntmaxLoss.call I)),
         EntmaxLoss.run self calls = self
         /\ EntmaxLoss.criterion (EntmaxLoss.run self calls)
            = EntmaxLoss.criterion self.
Proof.
  intros Hlt. eexists. split; [now apply entmax_init_ok|]. simpl.
  repeat split.
  - intros E. apply Qeq_eq_bool in E. now rewrite E.
  - intros E.
    destruct (Qeq_bool loss_alpha 1.5) eqn:E15.
    + apply Qeq_bool_eq in E15. rewrite E in E15. discriminate E15.
    + apply Qeq_eq_bool in E. now rewrite E.
  - intros N15 N2.
    destruct (Qeq_bool loss_alpha 1.5) eqn:E15.
    { apply Qeq_bool_eq in E15. contradiction. }
    destruct (Qeq_bool loss_alpha 2) eqn:E2.
    { apply Qeq_bool_eq in E2. contradiction. }
    reflexivity.
  - apply entmax_run_id.
  - now rewrite entmax_run_id.
Qed.

Lemma entmax_init_selects_loss_witness :
  (1 < 1.2)%Q
  /\ exists self,
       EntmaxLoss.__init__ Samples.task 1.2 false = Ok self
       /\ (1.2 == 1.5 -> EntmaxLoss.criterion self = Entmax15Loss)%Q
       /\ (1.2 == 2 -> EntmaxLoss.criterion self = SparsemaxLoss)%Q
       /\ (~ 1.2 == 1.5 -> ~ 1.2 == 2 ->
           EntmaxLoss.criterion self = EntmaxBisectLoss 1.2)%Q
       /\ forall (L : LossLibrary) (I : Type) (calls : list (EntmaxLoss.call I)),
            EntmaxLoss.run self calls = self
            /\ EntmaxLoss.criterion (EntmaxLoss.run self calls)
               = EntmaxLoss.criterion self.
Proof.
  split.
  - reflexivity.
  - apply (entmax_init_selects_loss Samples.task 1.2 false). reflexivity.
Defined.

(** ** Where exceptions come from *)

Lemma broadcast2_raise {A B C} (f : A -> B -> C) u v e :
  broadcast2 f u v = Raise e -> e = RuntimeError.
Proof.
  unfold broadcast2. destruct (length u =? length v)%nat; [discriminate|].
  destruct u as [|a [|a' u]], v as [|b [|b' v]]; congruence.
Qed.

Lemma tensor_map2_raise f a b e :
  tensor_map2 f a b = Raise e -> e = RuntimeError.
Proof.
  destruct a as [x|x|u], b as [y|y|v]; simpl; try discriminate.
  destruct (broadcast2 f u v) eqn:E; simpl; [discriminate|].
  intros [= <-]. now apply broadcast2_raise in E.
Qed.

Lemma mapM_gather_raise (V : Z) (ps : list (list Q * Z)) e :
  mapM (fun '(r, t) =>
          if (0 <=? t) && (t <? V)
          then Ok (nth (Z.to_nat t) r 0%Q)
          else Raise IndexError) ps = Raise e ->
  e = IndexError.
Proof.
  induction ps as [|[r t] ps IH]; simpl; [discriminate|].
  destruct ((0 <=? t) && (t <? V)); simpl; [|congruence].
  match goal with |- context [mapM ?f ps] => destruct (mapM f ps) end;
    simpl; [discriminate|].
  intros [= <-]. now apply IH.
Qed.

Lemma gather1_raise logits target e :
  FylsLoss.gather1 logits target = Raise e ->
  e = IndexError \/ e = RuntimeError.
Proof.
  unfold FylsLoss.gather1.
  destruct (length target <=? length (rows logits))%nat; [|right; congruence].
  intros E. left. now apply mapM_gather_raise in E.
Qed.

Lemma z_bar_raise self logits e :
  FylsLoss.z_bar self logits = Raise e -> e = RuntimeError.
Proof.
  unfold FylsLoss.z_bar.
  destruct ((0 <=? _) && _); [|discriminate].
  match goal with |- context [broadcast2 ?f ?u ?v] =>
    destruct (broadcast2 f u v) eqn:E end; simpl; [discriminate|].
  intros [= <-]. now apply broadcast2_raise in E.
Qed.

Lemma masked_fill_raise xs mask v e :
  FylsLoss.masked_fill_ xs mask v = Raise e -> e = RuntimeError.
Proof.
  unfold FylsLoss.masked_fill_.
  destruct (length mask =? length xs)%nat; [discriminate|].
  destruct mask as [|b [|b' mask]]; congruence.
Qed.

Lemma compute_smoothing_raise self logits target reduce e :
  FylsLoss._compute_smoothing self logits target reduce = Raise e ->
  e = IndexError \/ e = RuntimeError.
Proof.
  unfold FylsLoss._compute_smoothing.
  destruct (FylsLoss.gather1 logits target) as [zy|e1] eqn:E1; simpl.
  2: { intros [= <-]. now apply gather1_raise in E1. }
  destruct (FylsLoss.z_bar self logits) as [zb|e2] eqn:E2; simpl.
  2: { intros [= <-]. right. now apply z_bar_raise in E2. }
  destruct (broadcast2 Qminus zy zb) as [d|e3] eqn:E3; simpl.
  2: { intros [= <-]. right. now apply broadcast2_raise in E3. }
  match goal with |- context [FylsLoss.masked_fill_ ?a ?b ?c] =>
    destruct (FylsLoss.masked_fill_ a b c) as [m|e4] eqn:E4 end; simpl.
  2: { intros [= <-]. right. now apply masked_fill_raise in E4. }
  destruct reduce; discriminate.
Qed.

(** C5. The constructor of the base criterion raises its assertion error
    exactly when [loss_alpha <= 1], that of the smoothing criterion exactly
    when [loss_alpha < 1], and each returns a criterion in every other case.
    No later call fails on [loss_alpha]: an assertion error out of [forward]
    can only be one the external loss raised. *)
Theorem init_fails_exactly_on_bad_alpha :
  (forall task loss_alpha sentence_avg,
     (EntmaxLoss.__init__ task loss_alpha sentence_avg = Raise AssertionError
      <-> (loss_alpha <= 1)%Q)
     /\ ((exists self,
            EntmaxLoss.__init__ task loss_alpha sentence_avg = Ok self)
         <-> (1 < loss_alpha)%Q))
  /\ (forall task loss_alpha eps sentence_avg,
     (FylsLoss.__init__ task loss_alpha eps sentence_avg = Raise AssertionError
      <-> (loss_alpha < 1)%Q)
     /\ ((exists self,
            FylsLoss.__init__ task loss_alpha eps sentence_avg = Ok self)
         <-> (1 <= loss_alpha)%Q))
  /\ (forall (L : LossLibrary) (I : Type) self (model : Model I) sample reduce,
     EntmaxLoss.forward self model sample reduce = Raise AssertionError ->
     exists cls ignore_index r logits target,
       apply_loss cls ignore_index r logits target = Raise AssertionError)
  /\ (forall (L : LossLibrary) (I : Type) self (model : Model I) sample reduce,
     FylsLoss.forward self model sample reduce = Raise AssertionError ->
     exists cls ignore_index r logits target,
       apply_loss cls ignore_index r logits target = Raise AssertionError).
Proof.
  split; [|split; [|split]].
  - intros task loss_alpha sentence_avg. unfold EntmaxLoss.__init__.
    destruct (Qlt_bool 1 loss_alpha) eqn:E.
    + apply Qlt_bool_iff in E. split; split.
      * discriminate.
      * intros Hle. exfalso. exact (Qlt_not_le _ _ E Hle).
      * intros _. exact E.
      * intros _. eexists. reflexivity.
    + apply Qlt_bool_false_iff in E. split; split.
      * intros _. exact E.
      * reflexivity.
      * intros [self Hs]. discriminate Hs.
      * intros Hlt. exfalso. exact (Qlt_not_le _ _ Hlt E).
  - intros task loss_alpha eps sentence_avg. unfold FylsLoss.__init__.
    destruct (Qle_bool 1 loss_alpha) eqn:E.
    + apply Qle_bool_iff in E. split; split.
      * discriminate.
      * intros Hlt. exfalso. exact (Qlt_not_le _ _ Hlt E).
      * intros _. exact E.
      * intros _. eexists. reflexivity.
    + apply Qle_bool_false_iff in E. split; split.
      * intros _. exact E.
      * reflexivity.
      * intros [self Hs]. discriminate Hs.
      * intros Hle. exfalso. exact (Qlt_not_le _ _ E Hle).
  - intros L I self model sample reduce.
    unfold EntmaxLoss.forward, EntmaxLoss.compute_loss.
    case_apply_loss b e E.
    + discriminate.
    + intros [= ->]. eauto 6.
  - intros L I self model sample reduce.
    unfold FylsLoss.forward, FylsLoss.compute_loss.
    case_apply_loss b e E.
    2: { intros [= ->]. eauto 6. }
    match goal with |- context [FylsLoss._compute_smoothing ?s ?l ?t ?r] =>
      destruct (FylsLoss._compute_smoothing s l t r) as [sm|e] eqn:E2 end; simpl.
    2: { intros [= ->]. apply compute_smoothing_raise in E2.
         destruct E2; discriminate. }
    destruct (tensor_add b sm) as [l|e] eqn:E3; simpl; [discriminate|].
    intros [= ->]. apply tensor_map2_raise in E3. discriminate.
Qed.

(** ** The loss of a batch *)

(** C9. For every batch, [compute_loss] of the base criterion returns the
    value of the bound loss in both components of its pair; it raises only
    what the loss raises. *)
Theorem entmax_compute_loss_returns_loss_twice `{LossLibrary} {I : Type}
    (self : EntmaxLoss.EntmaxLossCriterion) (model : Model I)
    (net_output : NetOutput) (sample : Sample I) (reduce : bool) :
  match EntmaxLoss.compute_loss self model net_output sample reduce with
  | Ok (loss, base_loss) =>
      loss = base_loss
      /\ apply_loss (EntmaxLoss.criterion self) (EntmaxLoss.padding_idx self)
           (if reduce then reduction_sum else reduction_none)
           (view2 (item0 net_output))
           (view1 (get_targets model sample net_output)) = Ok loss
  | Raise e =>
      apply_loss (EntmaxLoss.criterion self) (EntmaxLoss.padding_idx self)
        (if reduce then reduction_sum else reduction_none)
        (view2 (item0 net_output))
        (view1 (get_targets model sample net_output)) = Raise e
  end.
Proof.
  unfold EntmaxLoss.compute_loss.
  case_apply_loss b e E; auto.
Qed.

(** C10. For every batch on which [forward] returns, in both criterions,
    the sample size returned and stored under ["sample_size"] in the
    logging record is the number of sentences [target.size(0)] when
    [sentence_avg] is set, and the batch's [ntokens] otherwise, whatever the
    targets are; [forward] returns whenever [compute_loss] does. *)
Theorem forward_sample_size `{LossLibrary} {I : Type}
    (model : Model I) (sample : Sample I) (reduce : bool) :
  (forall self : EntmaxLoss.EntmaxLossCriterion,
     match EntmaxLoss.forward self model sample reduce with
     | Ok (loss, sample_size, logging_output) =>
         sample_size = (if EntmaxLoss.sentence_avg self
                        then size0 (target sample) else ntokens sample)
         /\ logging_output !! "sample_size" = Some (int sample_size)
         /\ logging_output !! "nsentences" = Some (int (size0 (target sample)))
         /\ logging_output !! "ntokens" = Some (int (ntokens sample))
     | Raise e =>
         EntmaxLoss.compute_loss self model
           (call_model model (net_input sample)) sample reduce = Raise e
     end)
  /\ (forall self : FylsLoss.FenchelYoungLabelSmoothingLossCriterion,
     match FylsLoss.forward self model sample reduce with
     | Ok (loss, sample_size, logging_output) =>
         sample_size = (if FylsLoss.sentence_avg self
                        then size0 (target sample) else ntokens sample)
         /\ logging_output !! "sample_size" = Some (int sample_size)
         /\ logging_output !! "nsentences" = Some (int (size0 (target sample)))
         /\ logging_output !! "ntokens" = Some (int (ntokens sample))
     | Raise e =>
         FylsLoss.compute_loss self model
           (call_model model (net_input sample)) sample reduce = Raise e
     end).
Proof.
  split; intros self.
  - unfold EntmaxLoss.forward.
    destruct (EntmaxLoss.compute_loss self model _ sample reduce)
      as [[loss base]|e]; simpl; [|reflexivity].
    repeat split; by simplify_map_eq.
  - unfold FylsLoss.forward.
    destruct (FylsLoss.compute_loss self model _ sample reduce)
      as [[loss base]|e]; simpl; [|reflexivity].
    repeat split; by simplify_map_eq.
Qed.

(** C6. For every batch on which the bound loss returns [base], the
    smoothing term is [smooth] and their sum is [loss], [compute_loss] of
    the smoothing criterion returns [loss] first and [base] second, and
    [forward] returns [loss] and stores [loss] under ["loss"] and [base],
    without the smoothing term, under ["loss_ystar"]. *)
Theorem fyls_loss_is_base_plus_smoothing `{LossLibrary} {I : Type}
    (self : FylsLoss.FenchelYoungLabelSmoothingLossCriterion)
    (model : Model I) (sample : Sample I) (reduce : bool)
    (base smooth loss : tensor) :
  let net_output := call_model model (net_input sample) in
  let logits := view2 (item0 net_output) in
  let targets := view1 (get_targets model sample net_output) in
  apply_loss (FylsLoss.criterion self) (FylsLoss.padding_idx self)
    (if reduce then reduction_sum else reduction_none) logits targets
  = Ok base ->
  FylsLoss._compute_smoothing self logits targets reduce = Ok smooth ->
  tensor_add base smooth = Ok loss ->
  FylsLoss.compute_loss self model net_output sample reduce = Ok (loss, base)
  /\ exists sample_size logging_output,
       FylsLoss.forward self model sample reduce
       = Ok (loss, sample_size, logging_output)
       /\ logging_output !! "loss" = Some loss
       /\ logging_output !! "loss_ystar" = Some base.
Proof.
  intros net_output logits targets Hbase Hsmooth Hadd.
  assert (Hc : FylsLoss.compute_loss self model net_output sample reduce
               = Ok (loss, base)).
  { unfold FylsLoss.compute_loss. fold logits. fold targets.
    rewrite Hbase. simpl. rewrite Hsmooth. simpl. now rewrite Hadd. }
  split; [exact Hc|].
  unfold FylsLoss.forward. fold net_output. rewrite Hc. simpl.
  do 2 eexists. split; [reflexivity|].
  split; by simplify_map_eq.
Qed.

Lemma fyls_loss_is_base_plus_smoothing_witness :
  FylsLoss.compute_loss (H := Samples.counting_loss) Samples.fyls
    Samples.model (call_model Samples.model tt) Samples.sample true
  = Ok (Scalar (38 # 40), Scalar 1)
  /\ exists sample_size logging_output,
       FylsLoss.forward (H := Samples.counting_loss) Samples.fyls
         Samples.model Samples.sample true
       = Ok (Scalar (38 # 40), sample_size, logging_output)
       /\ logging_output !! "loss" = Some (Scalar (38 # 40))
       /\ logging_output !! "loss_ystar" = Some (Scalar 1).
Proof.
  apply (fyls_loss_is_base_plus_smoothing (H := Samples.counting_loss)
           Samples.fyls Samples.model Samples.sample true
           (Scalar 1) (Scalar (-2 # 40)) (Scalar (38 # 40)));
    reflexivity.
Defined.

(** ** The smoothing term *)

Lemma map_fmap {A B} (f : A -> B) (l : list A) : map f l = f <$> l.
Proof. reflexivity. Qed.

Lemma zip_with_map_same {A B C D} (f : B -> C -> D) (g : A -> B) (h : A -> C)
    (l : list A) :
  zip_with f (map g l) (map h l) = map (fun x => f (g x) (h x)) l.
Proof.
  induction l as [|x l IH]; simpl; [reflexivity|]. now rewrite IH.
Qed.

(** The value of [z_bar] for one row of logits. *)
Lemma z_bar_rows (self : FylsLoss.FenchelYoungLabelSmoothingLossCriterion)
    (logits : matrix) :
  FylsLoss.z_bar self logits =
  Ok (map (fun row =>
             if (0 <=? FylsLoss.padding_idx self)
                && (FylsLoss.padding_idx self <? size_last logits)
             then ((Qsum row - nth (Z.to_nat (FylsLoss.padding_idx self)) row 0)
                   / inject_Z (size_last logits - 1))%Q
             else (Qsum row / inject_Z (size_last logits))%Q)
          (rows logits)).
Proof.
  unfold FylsLoss.z_bar.
  destruct ((0 <=? _) && _).
  - unfold FylsLoss.sum_dim1, FylsLoss.column.
    rewrite broadcast2_same_length by now rewrite !length_map.
    simpl. rewrite zip_with_map_same, map_map. reflexivity.
  - reflexivity.
Qed.

Lemma mapM_gather_ok (V : Z) (rs : list (list Q)) (ts : list Z) :
  Forall (fun t => 0 <= t < V) ts ->
  mapM (fun '(r, t) =>
          if (0 <=? t) && (t <? V)
          then Ok (nth (Z.to_nat t) r 0%Q)
          else Raise IndexError) (zip rs ts)
  = Ok (zip_with (fun r t => nth (Z.to_nat t) r 0%Q) rs ts).
Proof.
  intros Hts. revert rs.
  induction Hts as [|t ts Ht _ IH]; intros [|r rs]; simpl; try reflexivity.
  assert (E : (0 <=? t) && (t <? V) = true).
  { apply andb_true_iff. split; [apply Z.leb_le|apply Z.ltb_lt]; lia. }
  rewrite E. simpl. now rewrite IH.
Qed.

Lemma gather1_ok (logits : matrix) (targets : list Z) :
  length targets = length (rows logits) ->
  Forall (fun t => 0 <= t < size_last logits) targets ->
  FylsLoss.gather1 logits targets
  = Ok (zip_with (fun r t => nth (Z.to_nat t) r 0%Q) (rows logits) targets).
Proof.
  intros Hlen Hts. unfold FylsLoss.gather1.
  rewrite Hlen, Nat.leb_refl. now apply mapM_gather_ok.
Qed.

(** The per-position smoothing terms, before the reduction. *)
Lemma compute_smoothing_terms
    (self : FylsLoss.FenchelYoungLabelSmoothingLossCriterion)
    (logits : matrix) (targets : list Z) (zb : list Q) (reduce : bool) :
  length targets = length (rows logits) ->
  Forall (fun t => 0 <= t < size_last logits) targets ->
  FylsLoss.z_bar self logits = Ok zb ->
  length zb = length (rows logits) ->
  let terms :=
    zip_with (fun x (b : bool) => if b then 0%Q else x)
      (map (Qmult (FylsLoss.label_smoothing self))
         (zip_with Qminus
            (zip_with (fun r t => nth (Z.to_nat t) r 0%Q) (rows logits) targets)
            zb))
      (map (fun t => t =? FylsLoss.padding_idx self) targets) in
  FylsLoss._compute_smoothing self logits targets reduce
  = Ok (if reduce then Scalar (Qsum terms) else Vector terms).
Proof.
  intros Hlen Hts Hzb Hzlen terms. unfold FylsLoss._compute_smoothing.
  rewrite gather1_ok by assumption. simpl. rewrite Hzb. simpl.
  rewrite broadcast2_same_length
    by (rewrite length_zip_with; lia).
  simpl. unfold FylsLoss.masked_fill_.
  rewrite !length_map, !length_zip_with.
  match goal with |- context [(length targets =? ?n)%nat] =>
    replace (length targets =? n)%nat with true
      by (symmetry; apply Nat.eqb_eq; lia)
  end.
  fold terms. now destruct reduce.
Qed.

(** C3. [z_bar] has one entry per row of logits. When the padding index is
    a column, [0 <= padding_idx < logits.size(-1)], the entry is the sum of
    the row minus its logit in the padding column, divided by the number of
    columns minus one; otherwise it is the sum of the row divided by the
    number of columns, the mean of the row. *)
Theorem z_bar_excludes_padding_column
    (self : FylsLoss.FenchelYoungLabelSmoothingLossCriterion)
    (logits : matrix) :
  exists zb,
    FylsLoss.z_bar self logits = Ok zb
    /\ length zb = length (rows logits)
    /\ forall (i : nat) (row : list Q),
         rows logits !! i = Some row ->
         (0 <= FylsLoss.padding_idx self < size_last logits ->
          forall z_pad,
            row !! Z.to_nat (FylsLoss.padding_idx self) = Some z_pad ->
            zb !! i = Some ((Qsum row - z_pad)
                            / inject_Z (size_last logits - 1))%Q)
         /\ (~ 0 <= FylsLoss.padding_idx self < size_last logits ->
             zb !! i = Some (Qsum row / inject_Z (size_last logits))%Q).
Proof.
  eexists. split; [apply z_bar_rows|].
  split; [apply length_map|].
  intros i row Hrow. rewrite map_fmap, list_lookup_fmap, Hrow. simpl.
  split.
  - intros [H0 HV] z_pad Hz.
    replace ((0 <=? FylsLoss.padding_idx self)
             && (FylsLoss.padding_idx self <? size_last logits)) with true
      by (symmetry; apply andb_true_iff;
          split; [apply Z.leb_le|apply Z.ltb_lt]; lia).
    now rewrite (nth_lookup_Some _ _ _ _ Hz).
  - intros Hout.
    replace ((0 <=? FylsLoss.padding_idx self)
             && (FylsLoss.padding_idx self <? size_last logits)) with false;
      [reflexivity|].
    symmetry. apply andb_false_iff.
    destruct (Z.leb_spec 0 (FylsLoss.padding_idx self)); [|now left].
    right. apply Z.ltb_ge. lia.
Qed.

(** C2. On logits of one row per target, every target a column: the
    smoothing term of a position is [label_smoothing * (z_ystar - z_bar)],
    with [z_ystar] the logit of the row at the target and [z_bar] the entry
    of [z_bar] for the row, and it is exactly [0] where the target is the
    padding index; without [reduce] the vector of these terms is returned,
    with [reduce] their sum. *)
Theorem compute_smoothing_per_position
    (self : FylsLoss.FenchelYoungLabelSmoothingLossCriterion)
    (logits : matrix) (targets : list Z) :
  rectangular logits ->
  length targets = length (rows logits) ->
  Forall (fun t => 0 <= t < size_last logits) targets ->
  exists (terms zb : list Q),
    FylsLoss.z_bar self logits = Ok zb
    /\ FylsLoss._compute_smoothing self logits targets false = Ok (Vector terms)
    /\ FylsLoss._compute_smoothing self logits targets true
       = Ok (Scalar (Qsum terms))
    /\ length terms = length targets
    /\ forall (i : nat) (t : Z),
         targets !! i = Some t ->
         exists (row : list Q) (z_ystar z_bar : Q),
           rows logits !! i = Some row
           /\ row !! Z.to_nat t = Some z_ystar
           /\ zb !! i = Some z_bar
           /\ terms !! i =
              Some (if t =? FylsLoss.padding_idx self then 0
                    else FylsLoss.label_smoothing self * (z_ystar - z_bar))%Q.
Proof.
  intros Hrect Hlen Hts.
  pose proof (z_bar_rows self logits) as Hzb.
  set (zb := map _ (rows logits)) in Hzb.
  assert (Hzlen : length zb = length (rows logits)) by apply length_map.
  eexists. exists zb. split; [exact Hzb|].
  split; [exact (compute_smoothing_terms self logits targets zb false
                   Hlen Hts Hzb Hzlen)|].
  split; [exact (compute_smoothing_terms self logits targets zb true
                   Hlen Hts Hzb Hzlen)|].
  split.
  - rewrite length_zip_with, !length_map, !length_zip_with. lia.
  - intros i t Ht.
    destruct (lookup_lt_is_Some_2 (rows logits) i) as [row Hrow].
    { rewrite <- Hlen. now apply lookup_lt_Some in Ht. }
    assert (Hin : 0 <= t < size_last logits).
    { rewrite Forall_forall in Hts. apply Hts.
      apply list_elem_of_lookup. eauto. }
    assert (Hcols : Z.of_nat (length row) = size_last logits).
    { unfold rectangular in Hrect. rewrite Forall_forall in Hrect.
      apply Hrect. apply list_elem_of_lookup. eauto. }
    destruct (lookup_lt_is_Some_2 row (Z.to_nat t)) as [z_ystar Hz]; [lia|].
    assert (Hb : zb !! i = (fun r => _) <$> rows logits !! i)
      by (unfold zb; rewrite map_fmap; apply list_lookup_fmap).
    rewrite Hrow in Hb. simpl in Hb.
    eexists row, z_ystar, _.
    split; [exact Hrow|]. split; [exact Hz|]. split; [exact Hb|].
    rewrite lookup_zip_with, !map_fmap, !list_lookup_fmap, !lookup_zip_with.
    rewrite Hrow, Ht, Hb. simpl.
    rewrite (nth_lookup_Some _ _ _ _ Hz).
    now destruct (t =? FylsLoss.padding_idx self).
Qed.

Lemma compute_smoothing_per_position_witness :
  exists (terms zb : list Q),
    FylsLoss.z_bar Samples.fyls (view2 Samples.logits) = Ok zb
    /\ FylsLoss._compute_smoothing Samples.fyls (view2 Samples.logits)
         [2; 0] false = Ok (Vector terms)
    /\ FylsLoss._compute_smoothing Samples.fyls (view2 Samples.logits)
         [2; 0] true = Ok (Scalar (Qsum terms))
    /\ length terms = length [2; 0]
    /\ forall (i : nat) (t : Z),
         [2; 0] !! i = Some t ->
         exists (row : list Q) (z_ystar z_bar : Q),
           rows (view2 Samples.logits) !! i = Some row
           /\ row !! Z.to_nat t = Some z_ystar
           /\ zb !! i = Some z_bar
           /\ terms !! i =
              Some (if t =? FylsLoss.padding_idx Samples.fyls then 0
                    else FylsLoss.label_smoothing Samples.fyls
                         * (z_ystar - z_bar))%Q.
Proof.
  apply (compute_smoothing_per_position Samples.fyls
           (view2 Samples.logits) [2; 0]).
  - repeat constructor.
  - reflexivity.
  - repeat constructor; lia.
Defined.

(** * Further properties of the two criterions *)

(** ** More arithmetic *)

Lemma fold_Qplus_zeros (k : nat) (a : Q) :
  fold_left Qplus (repeat 0%Q k) a = a.
Proof.
  induction k as [|k IH]; simpl; [reflexivity|].
  now rewrite Qplus_0_r_eq.
Qed.




(** ** The smoothing terms, row by row *)

(** The smoothing term of one position, as [_compute_smoothing] computes it
    from the row of logits and the target. *)
Lemma smoothing_terms_zip (eps : Q) (pad : Z) (g : list Q -> Q)
    (rs : list (list Q)) (ts : list Z) :
  zip_with (fun x (b : bool) => if b then 0%Q else x)
    (map (Qmult eps)
       (zip_with Qminus
          (zip_with (fun r t => nth (Z.to_nat t) r 0%Q) rs ts)
          (map g rs)))
    (map (fun t => t =? pad) ts)
  = zip_with (fun r t =>
                if t =? pad then 0%Q
                else (eps * (nth (Z.to_nat t) r 0 - g r))%Q) rs ts.
Proof.
  revert ts. induction rs as [|r rs IH]; intros [|t ts]; simpl;
    try reflexivity.
  now rewrite IH.
Qed.

Lemma compute_smoothing_zip
    (self : FylsLoss.FenchelYoungLabelSmoothingLossCriterion)
    (logits : matrix) (targets : list Z) (reduce : bool) :
  length targets = length (rows logits) ->
  Forall (fun t => 0 <= t < size_last logits) targets ->
  let terms :=
    zip_with (fun r t =>
                if t =? FylsLoss.padding_idx self then 0%Q
                else (FylsLoss.label_smoothing self
                      * (nth (Z.to_nat t) r 0
                         - (if (0 <=? FylsLoss.padding_idx self)
                               && (FylsLoss.padding_idx self <? size_last logits)
                            then (Qsum r
                                  - nth (Z.to_nat (FylsLoss.padding_idx self)) r 0)
                                 / inject_Z (size_last logits - 1)
                            else Qsum r / inject_Z (size_last logits))))%Q)
      (rows logits) targets in
  FylsLoss._compute_smoothing self logits targets reduce
  = Ok (if reduce then Scalar (Qsum terms) else Vector terms).
Proof.
  intros Hlen Hts terms.
  rewrite (compute_smoothing_terms self logits targets _ reduce Hlen Hts
             (z_bar_rows self logits)) by apply length_map.
  unfold terms. now rewrite smoothing_terms_zip.
Qed.

(** ** Construction, continued *)

(** X1. For [loss_alpha > 1] the two constructors succeed on the same task
    and bind the same loss class, padding index and [sentence_avg]: the
    criterion of the smoothing variant is the one of the unsmoothed case. *)
Theorem fyls_init_agrees_with_entmax_above_one (task : Task)
    (loss_alpha eps : Q) (sentence_avg : bool) :
  (1 < loss_alpha)%Q ->
  exists base smoothed,
    EntmaxLoss.__init__ task loss_alpha sentence_avg = Ok base
    /\ FylsLoss.__init__ task loss_alpha eps sentence_avg = Ok smoothed
    /\ FylsLoss.criterion smoothed = EntmaxLoss.criterion base
    /\ FylsLoss.padding_idx smoothed = EntmaxLoss.padding_idx base
    /\ FylsLoss.sentence_avg smoothed = EntmaxLoss.sentence_avg base
    /\ FylsLoss.label_smoothing smoothed = eps.
Proof.
  intros Hlt. do 2 eexists.
  split; [now apply entmax_init_ok|].
  split.
  - unfold FylsLoss.__init__.
    replace (Qle_bool 1 loss_alpha) with true; [reflexivity|].
    symmetry. apply Qle_bool_iff. now apply Qlt_le_weak.
  - simpl. repeat split.
Qed.

Lemma fyls_init_agrees_with_entmax_above_one_witness :
  exists base smoothed,
    EntmaxLoss.__init__ Samples.task 2 true = Ok base
    /\ FylsLoss.__init__ Samples.task 2 (1 # 10) true = Ok smoothed
    /\ FylsLoss.criterion smoothed = EntmaxLoss.criterion base
    /\ FylsLoss.padding_idx smoothed = EntmaxLoss.padding_idx base
    /\ FylsLoss.sentence_avg smoothed = EntmaxLoss.sentence_avg base
    /\ FylsLoss.label_smoothing smoothed = 1 # 10.
Proof.
  apply (fyls_init_agrees_with_entmax_above_one Samples.task 2 (1 # 10) true).
  reflexivity.
Defined.

(** X2. A criterion the base constructor returns is never bound to the
    cross-entropy loss, and when it is bound to the bisection loss, the
    [alpha] of that loss is the configured [loss_alpha], greater than 1 and
    neither 1.5 nor 2: the bisection is never used where a closed form
    exists. *)
Theorem entmax_init_criterion_range (task : Task) (loss_alpha : Q)
    (sentence_avg : bool) (self : EntmaxLoss.EntmaxLossCriterion) :
  EntmaxLoss.__init__ task loss_alpha sentence_avg = Ok self ->
  EntmaxLoss.criterion self <> CrossEntropyLoss
  /\ (forall alpha, EntmaxLoss.criterion self = EntmaxBisectLoss alpha ->
        alpha = loss_alpha
        /\ (1 < alpha)%Q /\ ~ (alpha == 1.5)%Q /\ ~ (alpha == 2)%Q).
Proof.
  unfold EntmaxLoss.__init__.
  destruct (Qlt_bool 1 loss_alpha) eqn:Hlt; [|discriminate].
  apply Qlt_bool_iff in Hlt. intros [= <-]. simpl.
  destruct (Qeq_bool loss_alpha 1.5) eqn:E15.
  { split; [discriminate|]. intros alpha [=]. }
  destruct (Qeq_bool loss_alpha 2) eqn:E2.
  { split; [discriminate|]. intros alpha [=]. }
  split; [discriminate|].
  intros alpha [= <-]. repeat split.
  - exact Hlt.
  - now apply Qeq_bool_neq.
  - now apply Qeq_bool_neq.
Qed.

Lemma entmax_init_criterion_range_witness :
  EntmaxLoss.criterion Samples.entmax_bisect <> CrossEntropyLoss
  /\ (forall alpha,
        EntmaxLoss.criterion Samples.entmax_bisect = EntmaxBisectLoss alpha ->
        alpha = 1.2%Q
        /\ (1 < alpha)%Q /\ ~ (alpha == 1.5)%Q /\ ~ (alpha == 2)%Q).
Proof.
  apply (entmax_init_criterion_range Samples.task 1.2 false
           Samples.entmax_bisect).
  reflexivity.
Defined.

(** ** When the smoothing term is computed *)

Lemma mapM_gather_ok_inv (V : Z) (rs : list (list Q)) (ts : list Z)
    (zs : list Q) :
  (length ts <= length rs)%nat ->
  mapM (fun '(r, t) =>
          if (0 <=? t) && (t <? V)
          then Ok (nth (Z.to_nat t) r 0%Q)
          else Raise IndexError) (zip rs ts) = Ok zs ->
  Forall (fun t => 0 <= t < V) ts /\ length zs = length ts.
Proof.
  revert ts zs. induction rs as [|r rs IH]; intros [|t ts] zs Hlen; simpl.
  - intros [= <-]. split; [constructor|reflexivity].
  - simpl in Hlen. lia.
  - intros [= <-]. split; [constructor|reflexivity].
  - destruct ((0 <=? t) && (t <? V)) eqn:E; simpl; [|discriminate].
    match goal with |- context [mapM ?f (zip rs ts)] =>
      destruct (mapM f (zip rs ts)) as [zs'|e] eqn:E' end;
      simpl; [|discriminate].
    intros [= <-]. simpl in Hlen.
    destruct (IH ts zs' ltac:(lia) E') as [Hts Hzs].
    apply andb_true_iff in E. destruct E as [E0 EV].
    apply Z.leb_le in E0. apply Z.ltb_lt in EV.
    split; [constructor; [lia|exact Hts]|simpl; now rewrite Hzs].
Qed.

Lemma gather1_ok_iff (logits : matrix) (targets : list Z) :
  (exists zs, FylsLoss.gather1 logits targets = Ok zs)
  <-> (length targets <= length (rows logits))%nat
      /\ Forall (fun t => 0 <= t < size_last logits) targets.
Proof.
  unfold FylsLoss.gather1. split.
  - intros [zs Hzs].
    destruct (length targets <=? length (rows logits))%nat eqn:E;
      [|discriminate].
    apply Nat.leb_le in E. split; [exact E|].
    now destruct (mapM_gather_ok_inv _ _ _ zs E Hzs).
  - intros [Hlen Hts]. apply Nat.leb_le in Hlen. rewrite Hlen.
    eexists. now apply mapM_gather_ok.
Qed.

Lemma gather1_length (logits : matrix) (targets : list Z) (zs : list Q) :
  FylsLoss.gather1 logits targets = Ok zs -> length zs = length targets.
Proof.
  unfold FylsLoss.gather1.
  destruct (length targets <=? length (rows logits))%nat eqn:E;
    [|discriminate].
  apply Nat.leb_le in E. intros Hzs.
  now destruct (mapM_gather_ok_inv _ _ _ zs E Hzs).
Qed.

Lemma broadcast2_ok_iff {A B C} (f : A -> B -> C) (u : list A) (v : list B) :
  (exists w, broadcast2 f u v = Ok w)
  <-> (length u = length v \/ length u = 1 \/ length v = 1)%nat.
Proof.
  unfold broadcast2.
  destruct (length u =? length v)%nat eqn:E.
  - apply Nat.eqb_eq in E. split; [now left|eauto].
  - apply Nat.eqb_neq in E.
    destruct u as [|a [|a' u]], v as [|b [|b' v]]; simpl in *;
      split; intros H; eauto;
      try (destruct H as [w H]; discriminate H);
      try (destruct H as [H|[H|H]]; lia).
Qed.

Lemma broadcast2_length {A B C} (f : A -> B -> C) u v w :
  broadcast2 f u v = Ok w ->
  length w = (if (length u =? 1)%nat then length v
              else if (length v =? 1)%nat then length u
              else length u).
Proof.
  unfold broadcast2.
  destruct (length u =? length v)%nat eqn:E.
  - apply Nat.eqb_eq in E. intros [= <-]. rewrite length_zip_with, <- E.
    destruct (length u =? 1)%nat eqn:E1; [lia|].
    destruct (length u =? 1)%nat; lia.
  - destruct u as [|a [|a' u]], v as [|b [|b' v]]; simpl in *;
      intros [= <-]; try reflexivity; simpl; now rewrite ?length_map.
Qed.

(** X3. [_compute_smoothing] raises [IndexError] as soon as one target is
    not a column of the logits (and there are no more targets than rows),
    before any masking: in particular when the padding index is not a
    column and a target is the padding index. *)
Theorem compute_smoothing_index_error
    (self : FylsLoss.FenchelYoungLabelSmoothingLossCriterion)
    (logits : matrix) (targets : list Z) (reduce : bool) (t : Z) :
  (length targets <= length (rows logits))%nat ->
  t ∈ targets ->
  ~ 0 <= t < size_last logits ->
  FylsLoss._compute_smoothing self logits targets reduce = Raise IndexError.
Proof.
  intros Hlen Hin Hbad. unfold FylsLoss._compute_smoothing.
  destruct (FylsLoss.gather1 logits targets) as [zs|e] eqn:E.
  - exfalso. apply Hbad.
    destruct (proj1 (gather1_ok_iff logits targets)) as [_ Hts]; [eauto|].
    rewrite Forall_forall in Hts. now apply Hts.
  - simpl. f_equal. unfold FylsLoss.gather1 in E.
    apply Nat.leb_le in Hlen. rewrite Hlen in E.
    now apply mapM_gather_raise in E.
Qed.

Lemma compute_smoothing_index_error_witness :
  FylsLoss._compute_smoothing Samples.fyls_no_padding
    (view2 Samples.logits) [2; -100] true = Raise IndexError.
Proof.
  apply (compute_smoothing_index_error Samples.fyls_no_padding
           (view2 Samples.logits) [2; -100] true (-100)).
  - simpl. lia.
  - set_solver.
  - simpl. lia.
Defined.

(** X4. [_compute_smoothing] returns a value exactly when there are no more
    targets than rows of logits, every target is a column, and the targets
    and the rows can be broadcast together: as many targets as rows, a
    single target, or a single row. *)
Theorem compute_smoothing_returns_iff
    (self : FylsLoss.FenchelYoungLabelSmoothingLossCriterion)
    (logits : matrix) (targets : list Z) (reduce : bool) :
  (exists v, FylsLoss._compute_smoothing self logits targets reduce = Ok v)
  <-> (length targets <= length (rows logits))%nat
      /\ Forall (fun t => 0 <= t < size_last logits) targets
      /\ (length targets = length (rows logits)
          \/ length targets = 1 \/ length (rows logits) = 1)%nat.
Proof.
  unfold FylsLoss._compute_smoothing.
  rewrite (z_bar_rows self logits).
  split.
  - intros [v Hv].
    destruct (FylsLoss.gather1 logits targets) as [zs|e] eqn:Eg;
      [|discriminate Hv].
    destruct (proj1 (gather1_ok_iff logits targets)) as [Hlen Hts]; [eauto|].
    apply gather1_length in Eg.
    cbn [mbind result_bind] in Hv.
    match type of Hv with context [broadcast2 ?f ?u ?w] =>
      destruct (broadcast2 f u w) as [d|e] eqn:Eb end; [|discriminate Hv].
    destruct (proj1 (broadcast2_ok_iff _ _ _) (ex_intro _ d Eb)) as [H|[H|H]];
      rewrite ?length_map, ?Eg in H; auto.
  - intros (Hlen & Hts & Hshape).
    destruct (proj2 (gather1_ok_iff logits targets)) as [zs Eg]; [auto|].
    rewrite Eg. pose proof (gather1_length _ _ _ Eg) as Hzs.
    cbn [mbind result_bind].
    match goal with |- context [broadcast2 ?f ?u ?w] =>
      destruct (proj2 (broadcast2_ok_iff f u w)) as [d Eb] end.
    { rewrite length_map, Hzs. exact Hshape. }
    rewrite Eb. apply broadcast2_length in Eb.
    rewrite length_map, Hzs in Eb.
    cbn [mbind result_bind].
    unfold FylsLoss.masked_fill_. rewrite !length_map, Eb.
    destruct (length targets =? 1)%nat eqn:E1.
    + apply Nat.eqb_eq in E1.
      destruct (length targets =? length (rows logits))%nat eqn:E2.
      * destruct reduce; eauto.
      * destruct targets as [|t [|t' targets]]; try discriminate E1.
        simpl. destruct reduce; eauto.
    + apply Nat.eqb_neq in E1.
      destruct (length (rows logits) =? 1)%nat eqn:E3;
        rewrite Nat.eqb_refl; destruct reduce; eauto.
Qed.

(** ** What the smoothing term depends on *)

(** X5. The smoothing term does not look at the logits of a padding
    position: two logits tensors of the same shape that agree on every row
    whose target is not the padding index have the same smoothing term,
    reduced or not. *)
Theorem compute_smoothing_ignores_padding_rows
    (self : FylsLoss.FenchelYoungLabelSmoothingLossCriterion)
    (logits logits' : matrix) (targets : list Z) (reduce : bool) :
  size_last logits' = size_last logits ->
  length (rows logits') = length (rows logits) ->
  length targets = length (rows logits) ->
  Forall (fun t => 0 <= t < size_last logits) targets ->
  (forall (i : nat) (t : Z),
     targets !! i = Some t -> t <> FylsLoss.padding_idx self ->
     rows logits' !! i = rows logits !! i) ->
  FylsLoss._compute_smoothing self logits' targets reduce
  = FylsLoss._compute_smoothing self logits targets reduce.
Proof.
  intros HV Hrows Hlen Hts Hagree.
  rewrite (compute_smoothing_zip self logits targets reduce Hlen Hts).
  rewrite (compute_smoothing_zip self logits' targets reduce)
    by (rewrite ?HV, ?Hrows; assumption).
  rewrite HV.
  match goal with
  | |- Ok (if reduce then Scalar (Qsum ?a) else Vector ?a)
       = Ok (if reduce then Scalar (Qsum ?b) else Vector ?b) =>
      assert (E : a = b); [|now rewrite E]
  end.
  apply list_eq. intros i. rewrite !lookup_zip_with.
  destruct (targets !! i) as [t|] eqn:Ht.
  - destruct (lookup_lt_is_Some_2 (rows logits) i) as [r Hr].
    { rewrite <- Hlen. now apply lookup_lt_Some in Ht. }
    destruct (lookup_lt_is_Some_2 (rows logits') i) as [r' Hr'].
    { rewrite Hrows, <- Hlen. now apply lookup_lt_Some in Ht. }
    rewrite Hr, Hr'. simpl.
    destruct (Z.eqb_spec t (FylsLoss.padding_idx self)) as [_|Hne];
      [reflexivity|].
    specialize (Hagree i t Ht Hne). rewrite Hr, Hr' in Hagree.
    now injection Hagree as ->.
  - now destruct (rows logits' !! i), (rows logits !! i).
Qed.

Lemma compute_smoothing_ignores_padding_rows_witness :
  FylsLoss._compute_smoothing Samples.fyls (view2 Samples.logits_other_padding)
    [2; 0] true
  = FylsLoss._compute_smoothing Samples.fyls (view2 Samples.logits) [2; 0] true.
Proof.
  apply (compute_smoothing_ignores_padding_rows Samples.fyls
           (view2 Samples.logits) (view2 Samples.logits_other_padding)
           [2; 0] true).
  - reflexivity.
  - reflexivity.
  - reflexivity.
  - repeat constructor; lia.
  - intros [|[|i]] t [= <-] Hne.
    + reflexivity.
    + now contradiction Hne.
Defined.

(** X6. Padding invariance of the smoothing term: appending rows of logits
    whose targets are the padding index (a column) leaves the reduced
    smoothing term unchanged, and extends the unreduced one by zeros. *)
Theorem compute_smoothing_appended_padding
    (self : FylsLoss.FenchelYoungLabelSmoothingLossCriterion)
    (logits : matrix) (targets : list Z) (extra : list (list Q)) :
  length targets = length (rows logits) ->
  Forall (fun t => 0 <= t < size_last logits) targets ->
  0 <= FylsLoss.padding_idx self < size_last logits ->
  let padded := {| size_last := size_last logits;
                   rows := rows logits ++ extra |} in
  let padded_targets :=
    targets ++ repeat (FylsLoss.padding_idx self) (length extra) in
  FylsLoss._compute_smoothing self padded padded_targets true
  = FylsLoss._compute_smoothing self logits targets true
  /\ exists terms,
       FylsLoss._compute_smoothing self logits targets false
       = Ok (Vector terms)
       /\ FylsLoss._compute_smoothing self padded padded_targets false
          = Ok (Vector (terms ++ repeat 0%Q (length extra))).
Proof.
  intros Hlen Hts Hpad padded padded_targets.
  assert (Hlen' : length padded_targets = length (rows padded)).
  { unfold padded_targets, padded. simpl.
    rewrite !length_app, repeat_length. lia. }
  assert (Hts' : Forall (fun t => 0 <= t < size_last padded) padded_targets).
  { unfold padded_targets, padded. simpl. apply Forall_app. split; [exact Hts|].
    apply Forall_forall. intros t Ht. apply list_elem_of_In, repeat_spec in Ht.
    now subst t. }
  pose proof (compute_smoothing_zip self padded padded_targets) as Hp.
  specialize (fun r => Hp r Hlen' Hts'). cbv zeta in Hp.
  pose proof (compute_smoothing_zip self logits targets) as Hl.
  specialize (fun r => Hl r Hlen Hts). cbv zeta in Hl.
  unfold padded, padded_targets in Hp. simpl in Hp.
  rewrite zip_with_app in Hp by (symmetry; exact Hlen).
  match type of Hp with
  | context [zip_with ?h extra (repeat ?p ?k)] =>
      assert (Hz : zip_with h extra (repeat p k) = repeat 0%Q k)
  end.
  { clear. induction extra as [|r extra IH]; simpl; [reflexivity|].
    now rewrite Z.eqb_refl, IH. }
  rewrite Hz in Hp. clear Hz.
  split.
  - unfold padded, padded_targets. rewrite (Hp true), (Hl true).
    do 2 f_equal. unfold Qsum. rewrite fold_left_app.
    apply fold_Qplus_zeros.
  - eexists. split; [exact (Hl false)|].
    unfold padded, padded_targets. exact (Hp false).
Qed.

Lemma compute_smoothing_appended_padding_witness :
  FylsLoss._compute_smoothing Samples.fyls
    {| size_last := 5;
       rows := rows (view2 Samples.logits) ++ [[9; 9; 9; 9; 9]%Q] |}
    ([2; 0] ++ repeat 0 1) true
  = FylsLoss._compute_smoothing Samples.fyls (view2 Samples.logits) [2; 0] true
  /\ exists terms,
       FylsLoss._compute_smoothing Samples.fyls (view2 Samples.logits)
         [2; 0] false = Ok (Vector terms)
       /\ FylsLoss._compute_smoothing Samples.fyls
            {| size_last := 5;
               rows := rows (view2 Samples.logits) ++ [[9; 9; 9; 9; 9]%Q] |}
            ([2; 0] ++ repeat 0 1) false
          = Ok (Vector (terms ++ repeat 0%Q 1)).
Proof.
  apply (compute_smoothing_appended_padding Samples.fyls
           (view2 Samples.logits) [2; 0] [[9; 9; 9; 9; 9]%Q]).
  - reflexivity.
  - repeat constructor; lia.
  - simpl. lia.
Defined.




(** ** Aggregation, continued *)

Lemma field_sum_single `{NumberFormat} (k : string) (total : gmap string Q)
    (v : Q) :
  total !! k = Some v -> field_sum k [total] = v.
Proof.
  intros Hk. unfold field_sum, fl_sum. simpl. now rewrite Hk.
Qed.

(** X9. The logging outputs can be summed before [reduce_metrics]: on one
    record holding the sums of the [loss], [loss_ystar] and [sample_size]
    fields of a sequence of records, [reduce_metrics] of either criterion
    logs what it logs on the sequence itself. *)
Theorem reduce_metrics_of_summed_record `{NumberFormat}
    (logs : list (gmap string Q)) (total : gmap string Q) :
  total !! "loss" = Some (field_sum "loss" logs) ->
  total !! "loss_ystar" = Some (field_sum "loss_ystar" logs) ->
  total !! "sample_size" = Some (field_sum "sample_size" logs) ->
  forall m : list log_scalar,
    EntmaxLoss.reduce_metrics [scalar_record total] m
    = EntmaxLoss.reduce_metrics (map scalar_record logs) m
    /\ FylsLoss.reduce_metrics [scalar_record total] m
       = FylsLoss.reduce_metrics (map scalar_record logs) m.
Proof.
  intros Hl Hb Hs m.
  change [scalar_record total] with (map scalar_record [total]).
  rewrite !entmax_reduce_metrics_scalars, !fyls_reduce_metrics_scalars.
  now rewrite (field_sum_single _ _ _ Hl), (field_sum_single _ _ _ Hb),
              (field_sum_single _ _ _ Hs).
Qed.

Lemma reduce_metrics_of_summed_record_witness :
  EntmaxLoss.reduce_metrics (H := exact)
    [scalar_record Samples.two_workers_summed] []
  = EntmaxLoss.reduce_metrics (H := exact)
      (map scalar_record Samples.two_workers) []
  /\ FylsLoss.reduce_metrics (H := exact)
       [scalar_record Samples.two_workers_summed] []
     = FylsLoss.reduce_metrics (H := exact)
         (map scalar_record Samples.two_workers) [].
Proof.
  apply (reduce_metrics_of_summed_record (H := exact) Samples.two_workers
           Samples.two_workers_summed); reflexivity.
Defined.

Lemma py_add_zero_r `{NumberFormat} (a : tensor) :
  py_add a (Number 0%Q) = Ok a.
Proof.
  destruct a as [x|x|u]; unfold py_add; simpl.
  - now rewrite fl_add_0_r.
  - now rewrite fl_add_0_r.
  - do 2 f_equal. rewrite <- (map_id u) at 2. apply map_ext.
    intros x. apply fl_add_0_r.
Qed.

Lemma py_sum_skip_zero `{NumberFormat} (xs ys : list tensor) :
  py_sum (xs ++ Number 0%Q :: ys) = py_sum (xs ++ ys).
Proof.
  unfold py_sum. rewrite !foldl_app. simpl. f_equal.
  match goal with |- context [foldl ?f ?a xs] =>
    destruct (foldl f a xs) as [t|e] end; simpl; [|reflexivity].
  apply py_add_zero_r.
Qed.

Lemma get0_missing (log : gmap string tensor) (k : string) :
  log !! k = None -> get0 log k = Number 0%Q.
Proof. unfold get0. now intros ->. Qed.

(** X10. A logging record without the fields [reduce_metrics] reads counts
    for nothing, wherever it stands among the records, whatever the other
    records hold: a missing field is read as [0]. *)
Theorem reduce_metrics_skips_record_without_fields `{NumberFormat}
    (before after : list (gmap string tensor)) (log : gmap string tensor) :
  log !! "loss" = None ->
  log !! "loss_ystar" = None ->
  log !! "sample_size" = None ->
  forall m : list log_scalar,
    EntmaxLoss.reduce_metrics (before ++ log :: after) m
    = EntmaxLoss.reduce_metrics (before ++ after) m
    /\ FylsLoss.reduce_metrics (before ++ log :: after) m
       = FylsLoss.reduce_metrics (before ++ after) m.
Proof.
  intros Hl Hb Hs m.
  unfold EntmaxLoss.reduce_metrics, FylsLoss.reduce_metrics.
  rewrite !map_app. simpl.
  rewrite (get0_missing _ _ Hl), (get0_missing _ _ Hb), (get0_missing _ _ Hs).
  rewrite !py_sum_skip_zero. rewrite <- !map_app. split; reflexivity.
Qed.

Lemma reduce_metrics_skips_record_without_fields_witness :
  EntmaxLoss.reduce_metrics (H := exact)
    (map scalar_record Samples.two_workers ++ ∅ :: []) []
  = EntmaxLoss.reduce_metrics (H := exact)
      (map scalar_record Samples.two_workers ++ []) []
  /\ FylsLoss.reduce_metrics (H := exact)
       (map scalar_record Samples.two_workers ++ ∅ :: []) []
     = FylsLoss.reduce_metrics (H := exact)
         (map scalar_record Samples.two_workers ++ []) [].
Proof.
  apply (reduce_metrics_skips_record_without_fields (H := exact)
           (map scalar_record Samples.two_workers) [] ∅); reflexivity.
Defined.

(** X11. [reduce_metrics] only adds to what the logger holds: the calls
    logged before are kept, also when it raises; the base criterion adds
    one call exactly when it returns and none when it raises, the smoothing
    criterion adds two when it returns and at most one when it raises. *)
Theorem reduce_metrics_appends_to_logger `{NumberFormat}
    (logs : list (gmap string tensor)) (m : list log_scalar) :
  (EntmaxLoss.reduce_metrics logs m
   = (m ++ fst (EntmaxLoss.reduce_metrics logs []),
      snd (EntmaxLoss.reduce_metrics logs []))
   /\ length (fst (EntmaxLoss.reduce_metrics logs []))
      = (if snd (EntmaxLoss.reduce_metrics logs []) is Ok _ then 1 else 0)%nat)
  /\ (FylsLoss.reduce_metrics logs m
      = (m ++ fst (FylsLoss.reduce_metrics logs []),
         snd (FylsLoss.reduce_metrics logs []))
      /\ (if snd (FylsLoss.reduce_metrics logs []) is Ok _
          then length (fst (FylsLoss.reduce_metrics logs [])) = 2%nat
          else (length (fst (FylsLoss.reduce_metrics logs [])) <= 1)%nat)).
Proof.
  split.
  - unfold EntmaxLoss.reduce_metrics, mbind, logging_bind, pure,
      metrics_log_scalar.
    destruct (py_sum (map (fun log => get0 log "loss") logs)) as [l|e];
      [|now rewrite app_nil_r].
    destruct (py_sum (map (fun log => get0 log "sample_size") logs)) as [s|e];
      [|now rewrite app_nil_r].
    destruct (tensor_div l s) as [v|e]; [|now rewrite app_nil_r].
    split; reflexivity.
  - unfold FylsLoss.reduce_metrics, mbind, logging_bind, pure,
      metrics_log_scalar.
    destruct (py_sum (map (fun log => get0 log "loss") logs)) as [l|e];
      [|simpl; rewrite app_nil_r; split; [reflexivity|lia]].
    destruct (py_sum (map (fun log => get0 log "loss_ystar") logs)) as [b|e];
      [|simpl; rewrite app_nil_r; split; [reflexivity|lia]].
    destruct (py_sum (map (fun log => get0 log "sample_size") logs)) as [s|e];
      [|simpl; rewrite app_nil_r; split; [reflexivity|lia]].
    destruct (tensor_div l s) as [v|e];
      [|simpl; rewrite app_nil_r; split; [reflexivity|lia]].
    destruct (tensor_div b s) as [w|e]; simpl.
    + split; [now rewrite <- app_assoc|reflexivity].
    + split; [reflexivity|lia].
Qed.

Lemma field_sum_missing `{NumberFormat} (k : string)
    (logs : list (gmap string Q)) :
  Forall (fun log => log !! k = None) logs -> field_sum k logs = 0%Q.
Proof.
  unfold field_sum, fl_sum. intros Hall.
  induction Hall as [|log logs Hlog _ IH]; simpl; [reflexivity|].
  rewrite Hlog. simpl. exact IH.
Qed.

(** X12. On records without a [loss_ystar] field, such as those of the
    unsmoothed criterion, [reduce_metrics] of the smoothing criterion still
    logs the loss, and logs a [base_loss] of zero. *)
Theorem fyls_reduce_metrics_without_loss_ystar `{NumberFormat}
    (logs : list (gmap string Q)) :
  Forall (fun log => log !! "loss_ystar" = None) logs ->
  ~ (field_sum "sample_size" logs == 0)%Q ->
  exists base_loss : Q,
    FylsLoss.reduce_metrics (map scalar_record logs) []
    = (fst (EntmaxLoss.reduce_metrics (map scalar_record logs) [])
       ++ [ {| key := "base_loss";
               value := LScalar (Finite base_loss);
               weight := Number (field_sum "sample_size" logs);
               round := 3 |} ], Ok tt)
    /\ (base_loss == 0)%Q.
Proof.
  intros Hmiss Hnz.
  rewrite fyls_reduce_metrics_scalars, entmax_reduce_metrics_scalars.
  destruct (Qeq_bool (field_sum "sample_size" logs) 0) eqn:E.
  { apply Qeq_bool_eq in E. contradiction. }
  eexists. split; [reflexivity|].
  rewrite (field_sum_missing _ _ Hmiss). reflexivity.
Qed.

Lemma fyls_reduce_metrics_without_loss_ystar_witness :
  exists base_loss : Q,
    FylsLoss.reduce_metrics (H := binary64)
      (map scalar_record Samples.two_workers) []
    = (fst (EntmaxLoss.reduce_metrics (H := binary64)
              (map scalar_record Samples.two_workers) [])
       ++ [ {| key := "base_loss";
               value := LScalar (Finite base_loss);
               weight := Number (field_sum (H := binary64) "sample_size"
                                   Samples.two_workers);
               round := 3 |} ], Ok tt)
    /\ (base_loss == 0)%Q.
Proof.
  apply (fyls_reduce_metrics_without_loss_ystar (H := binary64)
           Samples.two_workers).
  - repeat constructor.
  - vm_compute. discriminate.
Defined.

(** ** From a batch to the reported scalars *)

Lemma Qeq_bool_inject_Z_0 (n : Z) : Qeq_bool (inject_Z n) 0 = (n =? 0).
Proof. unfold Qeq_bool, inject_Z. simpl. now rewrite Z.mul_1_r. Qed.

Lemma fl_div_by_int `{NumberFormat} (x : Q) (n : Z) :
  (n <> 0 -> fl_div x (inject_Z n) = Finite (fl_quot x (inject_Z n)))
  /\ (n = 0 -> forall q, fl_div x (inject_Z n) <> Finite q).
Proof.
  split.
  - intros Hn. apply fl_div_nonzero. rewrite Qeq_bool_inject_Z_0.
    now apply Z.eqb_neq.
  - intros -> q. now apply fl_div_zero_not_finite.
Qed.

(** X13. One batch through the base criterion: when the bound loss returns
    a 0-dimensional tensor, [forward] returns a logging record on which
    [reduce_metrics] raises nothing and logs that loss divided by the
    sample size of the batch, weighted by the sample size: the rounded
    quotient when the sample size is not zero, an infinity or [nan], not a
    number, when it is zero. *)
Theorem entmax_forward_then_reduce_metrics `{LossLibrary} `{NumberFormat}
    {I : Type} (self : EntmaxLoss.EntmaxLossCriterion) (model : Model I)
    (sample : Sample I) (loss : Q) :
  let net_output := call_model model (net_input sample) in
  let sample_size :=
    if EntmaxLoss.sentence_avg self
    then size0 (target sample) else ntokens sample in
  apply_loss (EntmaxLoss.criterion self) (EntmaxLoss.padding_idx self)
    reduction_sum (view2 (item0 net_output))
    (view1 (get_targets model sample net_output)) = Ok (Scalar loss) ->
  exists logging_output,
    EntmaxLoss.forward self model sample true
    = Ok (Scalar loss, sample_size, logging_output)
    /\ EntmaxLoss.reduce_metrics [logging_output] []
       = ([ {| key := "loss";
               value := LScalar (fl_div loss (inject_Z sample_size));
               weight := int sample_size;
               round := 3 |} ], Ok tt)
    /\ (sample_size <> 0 ->
        fl_div loss (inject_Z sample_size)
        = Finite (fl_quot loss (inject_Z sample_size)))
    /\ (sample_size = 0 ->
        forall q, fl_div loss (inject_Z sample_size) <> Finite q).
Proof.
  intros net_output sample_size Hloss.
  unfold EntmaxLoss.forward, EntmaxLoss.compute_loss.
  fold net_output. rewrite Hloss. cbn [mbind result_bind]. fold sample_size.
  eexists. split; [reflexivity|].
  split; [|apply fl_div_by_int].
  unfold EntmaxLoss.reduce_metrics, mbind, logging_bind, pure,
    metrics_log_scalar. cbn [map].
  unfold get0. simplify_map_eq. reflexivity.
Qed.

Lemma entmax_forward_then_reduce_metrics_witness :
  exists logging_output,
    EntmaxLoss.forward (H := Samples.counting_loss) Samples.entmax
      Samples.model Samples.sample true
    = Ok (Scalar 1, 2, logging_output)
    /\ EntmaxLoss.reduce_metrics (H := binary64) [logging_output] []
       = ([ {| key := "loss";
               value := LScalar (fl_div (H := binary64) 1 (inject_Z 2));
               weight := int 2;
               round := 3 |} ], Ok tt)
    /\ (2 <> 0 ->
        fl_div (H := binary64) 1 (inject_Z 2)
        = Finite (fl_quot (H := binary64) 1 (inject_Z 2)))
    /\ (2 = 0 ->
        forall q, fl_div (H := binary64) 1 (inject_Z 2) <> Finite q).
Proof.
  apply (entmax_forward_then_reduce_metrics (H := Samples.counting_loss)
           (H0 := binary64) Samples.entmax Samples.model Samples.sample 1).
  reflexivity.
Defined.

(** X14. One batch through the smoothing criterion: when the bound loss
    returns the 0-dimensional tensor [base] and the smoothing term is
    [smooth], [reduce_metrics] on the record of [forward] raises nothing
    and logs [(base + smooth) / sample_size] as the loss and
    [base / sample_size] as the base loss: rounded quotients when the
    sample size is not zero, infinities or [nan] when it is zero. *)
Theorem fyls_forward_then_reduce_metrics `{LossLibrary} `{NumberFormat}
    {I : Type} (self : FylsLoss.FenchelYoungLabelSmoothingLossCriterion)
    (model : Model I) (sample : Sample I) (base smooth : Q) :
  let net_output := call_model model (net_input sample) in
  let logits := view2 (item0 net_output) in
  let targets := view1 (get_targets model sample net_output) in
  let sample_size :=
    if FylsLoss.sentence_avg self
    then size0 (target sample) else ntokens sample in
  apply_loss (FylsLoss.criterion self) (FylsLoss.padding_idx self)
    reduction_sum logits targets = Ok (Scalar base) ->
  FylsLoss._compute_smoothing self logits targets true = Ok (Scalar smooth) ->
  exists logging_output,
    FylsLoss.forward self model sample true
    = Ok (Scalar (base + smooth), sample_size, logging_output)
    /\ FylsLoss.reduce_metrics [logging_output] []
       = ([ {| key := "loss";
               value := LScalar (fl_div (base + smooth)
                                        (inject_Z sample_size));
               weight := int sample_size;
               round := 3 |};
            {| key := "base_loss";
               value := LScalar (fl_div base (inject_Z sample_size));
               weight := int sample_size;
               round := 3 |} ], Ok tt)
    /\ (sample_size <> 0 ->
        forall x, fl_div x (inject_Z sample_size)
                  = Finite (fl_quot x (inject_Z sample_size)))
    /\ (sample_size = 0 ->
        forall x q, fl_div x (inject_Z sample_size) <> Finite q).
Proof.
  intros net_output logits targets sample_size Hbase Hsmooth.
  unfold FylsLoss.forward, FylsLoss.compute_loss.
  fold net_output. fold logits. fold targets.
  rewrite Hbase. cbn [mbind result_bind]. rewrite Hsmooth.
  cbn [mbind result_bind tensor_add tensor_map2]. fold sample_size.
  eexists. split; [reflexivity|].
  split; [|split; intros Hn x; now apply fl_div_by_int].
  unfold FylsLoss.reduce_metrics, mbind, logging_bind, pure,
    metrics_log_scalar. cbn [map].
  unfold get0. simplify_map_eq. reflexivity.
Qed.

Lemma fyls_forward_then_reduce_metrics_witness :
  exists logging_output,
    FylsLoss.forward (H := Samples.counting_loss) Samples.fyls
      Samples.model Samples.sample true
    = Ok (Scalar (1 + (-2 # 40)), 2, logging_output)
    /\ FylsLoss.reduce_metrics (H := binary64) [logging_output] []
       = ([ {| key := "loss";
               value := LScalar (fl_div (H := binary64) (1 + (-2 # 40))
                                        (inject_Z 2));
               weight := int 2;
               round := 3 |};
            {| key := "base_loss";
               value := LScalar (fl_div (H := binary64) 1 (inject_Z 2));
               weight := int 2;
               round := 3 |} ], Ok tt)
    /\ (2 <> 0 ->
        forall x, fl_div (H := binary64) x (inject_Z 2)
                  = Finite (fl_quot (H := binary64) x (inject_Z 2)))
    /\ (2 = 0 ->
        forall x q, fl_div (H := binary64) x (inject_Z 2) <> Finite q).
Proof.
  apply (fyls_forward_then_reduce_metrics (H := Samples.counting_loss)
           (H0 := binary64) Samples.fyls Samples.model Samples.sample
           1 (-2 # 40));
    reflexivity.
Defined.

(** ** The loss of a well-shaped batch *)

Lemma length_concat_Forall2 {A B} (ls : list (list A)) (ks : list (list B)) :
  Forall2 (fun l k => length l = length k) ls ks ->
  length (concat ls) = length (concat ks).
Proof.
  induction 1 as [|l k ls ks Hlk _ IH]; simpl; [reflexivity|].
  rewrite !length_app. lia.
Qed.

(** X15. A batch with one target per sentence and position of the logits,
    every target a vocabulary entry, raises no shape or index error: when
    the bound loss returns one value per position, unreduced
    [compute_loss] of the smoothing criterion returns, per position, that
    value plus the smoothing term of the position, next to the values of
    the bound loss. *)
Theorem fyls_compute_loss_per_position `{LossLibrary} {I : Type}
    (self : FylsLoss.FenchelYoungLabelSmoothingLossCriterion)
    (model : Model I) (net_output : NetOutput) (sample : Sample I)
    (per_position : list Q) :
  let logits := item0 net_output in
  let targets := get_targets model sample net_output in
  Forall2 (fun (sentence : list (list Q)) (ids : list Z) =>
             length ids = length sentence) (blocks logits) targets ->
  Forall (Forall (fun t => 0 <= t < dim_last logits)) targets ->
  apply_loss (FylsLoss.criterion self) (FylsLoss.padding_idx self)
    reduction_none (view2 logits) (view1 targets) = Ok (Vector per_position) ->
  length per_position = length (view1 targets) ->
  exists terms : list Q,
    FylsLoss._compute_smoothing self (view2 logits) (view1 targets) false
    = Ok (Vector terms)
    /\ length terms = length per_position
    /\ FylsLoss.compute_loss self model net_output sample false
       = Ok (Vector (zip_with Qplus per_position terms), Vector per_position).
Proof.
  intros logits targets Hshape Hcols Hloss Hper.
  assert (Hlen : length (view1 targets) = length (rows (view2 logits))).
  { unfold view1, view2. simpl. symmetry.
    apply length_concat_Forall2.
    eapply Forall2_impl; [exact Hshape|]. simpl. auto. }
  assert (Hts : Forall (fun t => 0 <= t < size_last (view2 logits))
                  (view1 targets)).
  { unfold view1, view2. simpl. now apply Forall_concat. }
  pose proof (compute_smoothing_zip self (view2 logits) (view1 targets)
                false Hlen Hts) as Hs. cbv zeta in Hs.
  eexists. split; [exact Hs|].
  assert (Hterms : forall A B (h : A -> B -> Q) (l : list A) (k : list B),
            length k = length l ->
            length (zip_with h l k) = length k)
    by (intros; rewrite length_zip_with; lia).
  split; [rewrite Hterms by exact Hlen; now symmetry|].
  unfold FylsLoss.compute_loss. fold logits. fold targets.
  rewrite Hloss. cbn [mbind result_bind]. rewrite Hs.
  cbn [mbind result_bind tensor_add tensor_map2].
  rewrite broadcast2_same_length
    by (rewrite Hterms by exact Hlen; exact Hper).
  reflexivity.
Qed.

Lemma fyls_compute_loss_per_position_witness :
  exists terms : list Q,
    FylsLoss._compute_smoothing Samples.fyls (view2 Samples.logits)
      (view1 [[2; 0]]) false = Ok (Vector terms)
    /\ length terms = length [1%Q; 0%Q]
    /\ FylsLoss.compute_loss (H := Samples.counting_loss) Samples.fyls
         Samples.model (call_model Samples.model tt) Samples.sample false
       = Ok (Vector (zip_with Qplus [1; 0]%Q terms), Vector [1; 0]%Q).
Proof.
  apply (fyls_compute_loss_per_position (H := Samples.counting_loss)
           Samples.fyls Samples.model (call_model Samples.model tt)
           Samples.sample [1; 0]%Q).
  - repeat constructor.
  - repeat constructor; lia.
  - reflexivity.
  - reflexivity.
Defined.



(** X17. [forward] of the base criterion returns the value of the bound
    loss on the flattened logits and targets of the batch and stores that
    same value under ["loss"]; its record has no ["loss_ystar"] field; and
    it raises only what the bound loss raises. *)
Theorem entmax_forward_returns_bound_loss `{LossLibrary} {I : Type}
    (self : EntmaxLoss.EntmaxLossCriterion) (model : Model I)
    (sample : Sample I) (reduce : bool) :
  let net_output := call_model model (net_input sample) in
  let bound_loss :=
    apply_loss (EntmaxLoss.criterion self) (EntmaxLoss.padding_idx self)
      (if reduce then reduction_sum else reduction_none)
      (view2 (item0 net_output))
      (view1 (get_targets model sample net_output)) in
  match EntmaxLoss.forward self model sample reduce with
  | Ok (loss, _, logging_output) =>
      bound_loss = Ok loss
      /\ logging_output !! "loss" = Some loss
      /\ logging_output !! "loss_ystar" = None
      /\ dom logging_output
         = ({["loss"; "ntokens"; "nsentences"; "sample_size"]} : gset string)
  | Raise e => bound_loss = Raise e
  end.
Proof.
  intros net_output bound_loss.
  unfold EntmaxLoss.forward, EntmaxLoss.compute_loss. fold net_output.
  fold bound_loss. destruct bound_loss as [loss|e]; simpl; [|reflexivity].
  split; [reflexivity|]. split; [by simplify_map_eq|].
  split; [by simplify_map_eq|].
  rewrite !dom_insert_L, dom_empty_L. set_solver.
Qed.

